(** * Gonka.ai inference gateway: a shallow embedding of the core pipeline

    The development follows the Python sources module by module:
    - [Py]        : the fragment of Python data the gateway manipulates
                    (JSON-like values, dicts, slices, truthiness);
    - [Sessions]  : [agent/sessions.py]   (session store, merge, truncation);
    - [RateLimit] : [gateway/rate_limit.py];
    - [Router]    : [gateway/router.py]   (model registry reload);
    - [Tiering]   : [agent/tiering.py];
    - [Stream]    : [gateway/main.py]     (SSE relay and post-stream metering);
    - [Metering]  : [gateway/metering.py] (aggregation queries);
    - [Auth]      : [gateway/auth.py]     (masked key listing).

    Wall-clock readings ([time.time()]) are rationals: every call of
    [time.time()] in the source is an explicit argument of the embedded
    function, in the order in which the source reads the clock. *)

From Stdlib Require Import ZArith QArith Qround String Ascii List Lia Lqa.
From stdpp Require Import base option list gmap strings pretty.

Local Open Scope string_scope.
Local Open Scope list_scope.

(** ** Python data *)

Module Py.

(** JSON-like Python values: what [json.loads] and [yaml.safe_load] build. *)
#[local] Set Warnings "-register-all".
Inductive value : Type :=
| VNone
| VBool (b : bool)
| VInt (n : Z)
| VFloat (q : Q)
| VStr (s : string)
| VList (l : list value)
| VDict (d : list (string * value)).

(** A [dict] in insertion order. Keys are strings: JSON object keys, and
    the keys the catalog file is expected to have. *)
Definition pydict (V : Type) : Type := list (string * V).
Definition dict : Type := pydict value.

(** [d.get(k)]: [None] when the key is absent. *)
Fixpoint dict_get {V : Type} (k : string) (d : pydict V) : option V :=
  match d with
  | [] => None
  | (k', v) :: d' => if String.eqb k k' then Some v else dict_get k d'
  end.

(** [d[k] = v]: an existing key keeps its position, a new key goes last. *)
Fixpoint dict_set {V : Type} (k : string) (v : V) (d : pydict V) : pydict V :=
  match d with
  | [] => [(k, v)]
  | (k', v') :: d' =>
      if String.eqb k k' then (k', v) :: d' else (k', v') :: dict_set k v d'
  end.

(** Exceptions the embedded code can raise. *)
Inductive exn : Type :=
| HTTPException (status_code : Z) (detail : value) (headers : list (string * string))
| AttributeError
| TypeError
| ExternalError (name : string).

(** The outcome of a call that may raise. *)
Inductive result (A : Type) : Type :=
| Ok (a : A)
| Raise (e : exn).
Arguments Ok {A} a.
Arguments Raise {A} e.

Definition bind {A B : Type} (r : result A) (f : A -> result B) : result B :=
  match r with
  | Ok a => f a
  | Raise e => Raise e
  end.

(** [d.get(k, default)] *)
Definition dict_get_default (k : string) (default : value) (d : dict) : value :=
  match dict_get k d with
  | Some v => v
  | None => default
  end.

(** [v == s] for a string literal [s]. *)
Definition eq_str (v : option value) (s : string) : bool :=
  match v with
  | Some (VStr s') => String.eqb s' s
  | _ => false
  end.

(** Truthiness, as tested by [if v:]. *)
Definition truthy (v : value) : bool :=
  match v with
  | VNone => false
  | VBool b => b
  | VInt n => negb (n =? 0)%Z
  | VFloat q => negb (Qeq_bool q 0)
  | VStr s => negb (String.eqb s "")
  | VList l => match l with [] => false | _ => true end
  | VDict d => match d with [] => false | _ => true end
  end.

(** [l[start:]] for an arbitrary integer [start]: a negative index counts
    from the end, and indices are clamped to the list. *)
Definition slice_from {A : Type} (start : Z) (l : list A) : list A :=
  let len := Z.of_nat (length l) in
  let start' := if (start <? 0)%Z then Z.max 0 (start + len) else Z.min start len in
  drop (Z.to_nat start') l.


(** [x < y] on clock readings. *)
Definition Qltb (x y : Q) : bool := negb (Qle_bool y x).

End Py.

Import Py.

(** ** agent/sessions.py *)

Module Sessions.

(** A chat message is a [dict]; only its ["role"] entry is inspected here. *)
Definition Message : Type := dict.

(** [m.get("role") == "system"] *)
Definition is_system (m : Message) : bool := eq_str (dict_get "role" m) "system".

(** [m.get("role") != "system"] *)
Definition not_system (m : Message) : bool := negb (is_system m).

Record Session : Type := mkSession {
  session_id : string;
  api_key : string;
  messages : list Message;
  created_at : Q;
  last_accessed : Q;
  metadata : dict
}.

(** [Session.touch]: [self.last_accessed = time.time()] *)
Definition touch (now : Q) (s : Session) : Session :=
  mkSession (session_id s) (api_key s) (messages s) (created_at s) now (metadata s).

Definition set_messages (ms : list Message) (s : Session) : Session :=
  mkSession (session_id s) (api_key s) ms (created_at s) (last_accessed s) (metadata s).

(** [Session.idle_seconds] *)
Definition idle_seconds (now : Q) (s : Session) : Q := (now - last_accessed s)%Q.

Record SessionManager : Type := mkSessionManager {
  _sessions : gmap string Session;
  _ttl : Z;
  _max_history : Z
}.

Definition set_sessions (m : gmap string Session) (mgr : SessionManager) : SessionManager :=
  mkSessionManager m (_ttl mgr) (_max_history mgr).

(** [SessionManager.get_or_create]. The clock is read by the two default
    factories of a new [Session] ([t_created], [t_accessed]) and by [touch]
    ([t_touch]). *)
Definition get_or_create (t_created t_accessed t_touch : Q) (sid key : string)
    (mgr : SessionManager) : Session * SessionManager :=
  let session :=
    match _sessions mgr !! sid with
    | Some s => s
    | None => mkSession sid key [] t_created t_accessed []
    end in
  let session' := touch t_touch session in
  (session', set_sessions (<[sid := session']> (_sessions mgr)) mgr).

(** [SessionManager.get]: [t_idle] is the reading taken by [idle_seconds],
    [t_touch] the one taken by [touch]. *)
Definition get (t_idle t_touch : Q) (sid : string) (mgr : SessionManager)
  : option Session * SessionManager :=
  match _sessions mgr !! sid with
  | Some s =>
      if Qltb (idle_seconds t_idle s) (inject_Z (_ttl mgr)) then
        let s' := touch t_touch s in
        (Some s', set_sessions (<[sid := s']> (_sessions mgr)) mgr)
      else
        (None, set_sessions (delete sid (_sessions mgr)) mgr)
  | None => (None, mgr)
  end.

(** The trimming step of [append_messages], on the extended list. *)
Definition trim (max_history : Z) (ms : list Message) : list Message :=
  if (max_history <? Z.of_nat (length ms))%Z then
    let system_msgs := List.filter is_system ms in
    let non_system := List.filter not_system ms in
    let keep := (max_history - Z.of_nat (length system_msgs))%Z in
    system_msgs ++ slice_from (- keep) non_system
  else ms.

(** [SessionManager.append_messages] *)
Definition append_messages (now : Q) (sid : string) (msgs : list Message)
    (mgr : SessionManager) : SessionManager :=
  match _sessions mgr !! sid with
  | None => mgr
  | Some s =>
      let s1 := touch now (set_messages (messages s ++ msgs) s) in
      let s2 := set_messages (trim (_max_history mgr) (messages s1)) s1 in
      set_sessions (<[sid := s2]> (_sessions mgr)) mgr
  end.

(** [SessionManager.get_history] *)
Definition get_history (now : Q) (sid : string) (mgr : SessionManager)
  : list Message * SessionManager :=
  match _sessions mgr !! sid with
  | Some s =>
      let s' := touch now s in
      (messages s', set_sessions (<[sid := s']> (_sessions mgr)) mgr)
  | None => ([], mgr)
  end.

(** [SessionManager.inject_history] *)
Definition inject_history (now : Q) (sid : string) (request_messages : list Message)
    (mgr : SessionManager) : list Message * SessionManager :=
  let '(history, mgr') := get_history now sid mgr in
  match history with
  | [] => (request_messages, mgr')
  | _ :: _ =>
      let system_msgs := List.filter is_system request_messages in
      let new_msgs := List.filter not_system request_messages in
      let history_msgs := List.filter not_system history in
      (system_msgs ++ history_msgs ++ new_msgs, mgr')
  end.

(** The session step of [chat_completions] ([gateway/main.py]), taken when
    the [x-gonka-session-id] header is present: [get_or_create] followed by
    [inject_history]; the result replaces [body["messages"]]. *)
Definition session_step (t_created t_accessed t_touch t_hist : Q) (sid key : string)
    (body_messages : list Message) (mgr : SessionManager)
  : list Message * SessionManager :=
  let '(_, mgr1) := get_or_create t_created t_accessed t_touch sid key mgr in
  inject_history t_hist sid body_messages mgr1.

(** The last [k] elements of a list (none when [k <= 0]). *)
Definition last_n {A : Type} (k : Z) (l : list A) : list A :=
  drop (length l - Z.to_nat k) l.


(** The merge the specification names:
    [system_of(I) ++ non_system_of(H) ++ non_system_of(I)]. *)
Definition merge (H I : list Message) : list Message :=
  List.filter is_system I ++ List.filter not_system H ++ List.filter not_system I.

(** The stored history of a session id: empty for an unknown id. *)
Definition stored_history (sid : string) (mgr : SessionManager) : list Message :=
  match _sessions mgr !! sid with
  | Some s => messages s
  | None => []
  end.

(** Example messages and stores. *)
Definition msg (role content : string) : Message :=
  [("role", VStr role); ("content", VStr content)].

Definition session_of (sid : string) (ms : list Message) (accessed : Q) : Session :=
  mkSession sid "gk-dev" ms 0 accessed [].

Definition store_of (s : Session) (ttl max_history : Z) : SessionManager :=
  mkSessionManager {[ session_id s := s ]} ttl max_history.

(** The stored list of the truncation scenario, with MAX_HISTORY = 5. *)
Definition five_messages : list Message :=
  [msg "system" "S"; msg "user" "u1"; msg "assistant" "a1";
   msg "user" "u2"; msg "assistant" "a2"].

(** [SessionManager.delete] *)
Definition delete (sid : string) (mgr : SessionManager) : bool * SessionManager :=
  match _sessions mgr !! sid with
  | Some _ => (true, set_sessions (base.delete sid (_sessions mgr)) mgr)
  | None => (false, mgr)
  end.

(** [s.idle_seconds >= self._ttl], with the clock reading taken for [s]. *)
Definition is_expired (ttl : Z) (now : Q) (s : Session) : bool :=
  Qle_bool (inject_Z ttl) (idle_seconds now s).

(** [SessionManager.cleanup_expired]. [idle_seconds] reads the clock once
    for each session it looks at: [clock sid] is the reading taken for the
    session stored under [sid]. *)
Definition cleanup_expired (clock : string -> Q) (mgr : SessionManager)
  : Z * SessionManager :=
  let expired_ids :=
    map fst (List.filter (fun kv => is_expired (_ttl mgr) (clock (fst kv)) (snd kv))
               (map_to_list (_sessions mgr))) in
  (Z.of_nat (length expired_ids),
   set_sessions (fold_left (fun m sid => base.delete sid m) expired_ids (_sessions mgr)) mgr).

(** [SessionManager.active_count], with one clock reading for each session. *)
Definition active_count (clock : string -> Q) (mgr : SessionManager) : Z :=
  Z.of_nat (length (List.filter
                      (fun kv => Qltb (idle_seconds (clock (fst kv)) (snd kv))
                                      (inject_Z (_ttl mgr)))
                      (map_to_list (_sessions mgr)))).

End Sessions.

(** ** gateway/rate_limit.py *)

Module RateLimit.

Record WindowCounter : Type := mkWindowCounter {
  timestamps : list Q;
  token_counts : list (Q * value)
}.

(** [WindowCounter()] *)
Definition empty_counter : WindowCounter := mkWindowCounter [] [].

(** [WindowCounter.add_request] *)
Definition add_request (timestamp : Q) (c : WindowCounter) : WindowCounter :=
  mkWindowCounter (timestamps c ++ [timestamp]) (token_counts c).

(** [WindowCounter.add_tokens] *)
Definition add_tokens (timestamp : Q) (count : value) (c : WindowCounter) : WindowCounter :=
  mkWindowCounter (timestamps c) (token_counts c ++ [(timestamp, count)]).

(** [WindowCounter.request_count]: prunes, then counts. *)
Definition request_count (now : Q) (window_seconds : Q) (c : WindowCounter)
  : Z * WindowCounter :=
  let cutoff := (now - window_seconds)%Q in
  let ts := List.filter (fun t => Qltb cutoff t) (timestamps c) in
  (Z.of_nat (length ts), mkWindowCounter ts (token_counts c)).

(** [min(l)] on a non-empty list [x :: l]: the first smallest element. *)
Definition py_min (x : Q) (l : list Q) : Q :=
  fold_left (fun m t => if Qltb t m then t else m) l x.

(** [int(q)]: truncation towards zero. *)
Definition py_int (q : Q) : Z := Z.quot (Qnum q) (Z.pos (Qden q)).

(** [RateLimiter._estimate_retry_after] *)
Definition _estimate_retry_after (now : Q) (c : WindowCounter) : Z :=
  match timestamps c with
  | [] => 1
  | t :: ts =>
      let oldest := py_min t ts in
      let wait := (60 - (now - oldest))%Q in
      Z.max 1 (py_int wait + 1)
  end.

(** The exception built by [check_request]. *)
Definition rate_limit_exceeded (current_rpm rpm_limit retry_after : Z) : exn :=
  HTTPException 429
    (VDict [("error", VDict [
        ("message", VStr ("Rate limit exceeded: " +:+ pretty current_rpm +:+ "/"
                          +:+ pretty rpm_limit +:+ " RPM. Retry after "
                          +:+ pretty retry_after +:+ "s."));
        ("type", VStr "rate_limit_error");
        ("code", VStr "rate_limit_exceeded")])])
    [("Retry-After", pretty retry_after)].

(** [self._counters[api_key]] on a [defaultdict(WindowCounter)]. *)
Definition counter_of (api_key : string) (counters : gmap string WindowCounter)
  : WindowCounter :=
  match counters !! api_key with
  | Some c => c
  | None => empty_counter
  end.

(** [RateLimiter.check_request]. [t1] is the clock reading of
    [request_count]; [t2] is the next reading, taken by
    [_estimate_retry_after] on rejection and by [add_request] otherwise. *)
Definition check_request (t1 t2 : Q) (api_key : string) (rpm_limit : Z)
    (counters : gmap string WindowCounter)
  : result unit * gmap string WindowCounter :=
  let counter := counter_of api_key counters in
  let '(current_rpm, counter1) := request_count t1 60 counter in
  if (rpm_limit <=? current_rpm)%Z then
    let retry_after := _estimate_retry_after t2 counter1 in
    (Raise (rate_limit_exceeded current_rpm rpm_limit retry_after),
     <[api_key := counter1]> counters)
  else
    (Ok tt, <[api_key := add_request t2 counter1]> counters).

(** [RateLimiter.record_tokens] *)
Definition record_tokens (now : Q) (api_key : string) (token_count : value)
    (counters : gmap string WindowCounter) : gmap string WindowCounter :=
  <[api_key := add_tokens now token_count (counter_of api_key counters)]> counters.

(** [ceil(q)], the rounding the specification names. *)
Definition ceil (q : Q) : Z := Qceiling q.

(** The Retry-After value as the specification computes it:
    [ceil(60 - (now - oldest)) + 1], floored at 1. *)
Definition claimed_retry_after (now oldest : Q) : Z :=
  Z.max 1 (ceil (60 - (now - oldest))%Q + 1).

(** [detail["error"]["code"]] of an HTTP exception *)
Definition error_code (e : exn) : option value :=
  match e with
  | HTTPException _ (VDict d) _ =>
      match dict_get "error" d with
      | Some (VDict err) => dict_get "code" err
      | _ => None
      end
  | _ => None
  end.

(** The status and the Retry-After header of an HTTP exception *)
Definition status_of (e : exn) : option Z :=
  match e with
  | HTTPException status _ _ => Some status
  | _ => None
  end.

Definition retry_after_header (e : exn) : option string :=
  match e with
  | HTTPException _ _ headers => dict_get "Retry-After" headers
  | _ => None
  end.

(** The in-window timestamps of a key after pruning at [now]. *)
Definition window (now : Q) (api_key : string) (counters : gmap string WindowCounter)
  : list Q :=
  timestamps (snd (request_count now 60 (counter_of api_key counters))).

(** A key with one request at time 0. *)
Definition one_request : gmap string WindowCounter :=
  {[ "k" := mkWindowCounter [0%Q] [] ]}.

(** Successive [check_request] calls for one key and one limit; each call
    comes with its two clock readings. *)
Fixpoint check_requests (calls : list (Q * Q)) (api_key : string) (rpm_limit : Z)
    (counters : gmap string WindowCounter)
  : list (result unit) * gmap string WindowCounter :=
  match calls with
  | [] => ([], counters)
  | (t1, t2) :: rest =>
      let '(r, counters1) := check_request t1 t2 api_key rpm_limit counters in
      let '(rs, counters2) := check_requests rest api_key rpm_limit counters1 in
      (r :: rs, counters2)
  end.

(** A call was turned down with status 429. *)
Definition rejected (r : result unit) : Prop :=
  exists e : exn, r = Raise e /\ status_of e = Some 429%Z.

End RateLimit.

(** ** gateway/router.py *)

Module Router.

Record ModelBackend : Type := mkModelBackend {
  name : string;
  display_name : value;
  provider : value;
  model_id : value;
  tier : value;
  backend_url : value;
  capabilities : value;
  context_length : value;
  pricing : value
}.

(** What the file system and [yaml.safe_load] give to [reload]. *)
Inductive config_source : Type :=
| Missing                       (* [path.exists()] is false *)
| Unreadable (e : exn)          (* [open] or [yaml.safe_load] raises [e] *)
| Parsed (config : value).      (* [yaml.safe_load] returns [config] *)

(** [v.get(k, default)] on an arbitrary value: only a dict has [get]. *)
Definition value_get (k : string) (default : value) (v : value) : result value :=
  match v with
  | VDict d => Ok (dict_get_default k default d)
  | _ => Raise AttributeError
  end.

(** [v.items()] *)
Definition value_items (v : value) : result (list (string * value)) :=
  match v with
  | VDict d => Ok d
  | _ => Raise AttributeError
  end.

(** The [ModelBackend(...)] built for one entry of [models]. *)
Definition make_backend (name : string) (model_config : value) : result ModelBackend :=
  match model_config with
  | VDict mc =>
      Ok (mkModelBackend name
            (dict_get_default "display_name" (VStr name) mc)
            (dict_get_default "provider" (VStr "unknown") mc)
            (dict_get_default "model_id" (VStr name) mc)
            (dict_get_default "tier" (VStr "standard") mc)
            (dict_get_default "backend_url" (VStr "http://localhost:8000") mc)
            (dict_get_default "capabilities" (VList [VStr "chat"]) mc)
            (dict_get_default "context_length" (VInt 4096) mc)
            (dict_get_default "pricing" (VDict []) mc))
  | _ => Raise AttributeError
  end.

(** The [for] loop of [reload]: backends are stored one by one, and an
    exception leaves the entries stored so far. *)
Fixpoint load_backends (items : list (string * value)) (backends : pydict ModelBackend)
  : result unit * pydict ModelBackend :=
  match items with
  | [] => (Ok tt, backends)
  | (name, model_config) :: rest =>
      match make_backend name model_config with
      | Ok b => load_backends rest (dict_set name b backends)
      | Raise e => (Raise e, backends)
      end
  end.

(** [ModelRouter.reload] *)
Definition reload (src : config_source) (_backends : pydict ModelBackend)
  : result unit * pydict ModelBackend :=
  match src with
  | Missing => (Ok tt, _backends)
  | Unreadable e => (Raise e, _backends)
  | Parsed config =>
      let cleared : pydict ModelBackend := [] in
      match bind (value_get "models" (VDict []) config) value_items with
      | Ok items => load_backends items cleared
      | Raise e => (Raise e, cleared)
      end
  end.

(** The backend of an entry whose configuration is a mapping. *)
Definition backend_of (entry : string * dict) : string * ModelBackend :=
  let '(name, mc) := entry in
  (name,
   mkModelBackend name
     (dict_get_default "display_name" (VStr name) mc)
     (dict_get_default "provider" (VStr "unknown") mc)
     (dict_get_default "model_id" (VStr name) mc)
     (dict_get_default "tier" (VStr "standard") mc)
     (dict_get_default "backend_url" (VStr "http://localhost:8000") mc)
     (dict_get_default "capabilities" (VList [VStr "chat"]) mc)
     (dict_get_default "context_length" (VInt 4096) mc)
     (dict_get_default "pricing" (VDict []) mc)).

(** An entry of [models] whose configuration is the mapping [mc]. *)
Definition entry_value (entry : string * dict) : string * value :=
  (fst entry, VDict (snd entry)).

(** A catalog with one model, and a registry loaded earlier. *)
Definition one_model : list (string * dict) :=
  [("m1", [("provider", VStr "gonka"); ("backend_url", VStr "http://10.0.0.1:8000")])].

Definition one_model_config : value :=
  VDict [("models", VDict (map entry_value one_model))].

Definition old_backends : pydict ModelBackend :=
  [backend_of ("m0", [("provider", VStr "gonka")])].

(** The exception [resolve] raises; [available] is the text of
    [list(self._backends.keys())] as the f-string prints it. *)
Definition model_not_found (model_name available : string) : exn :=
  HTTPException 404
    (VDict [("error", VDict [
        ("message", VStr ("Model '" +:+ model_name +:+ "' not found. Available: "
                          +:+ available));
        ("type", VStr "invalid_request_error");
        ("code", VStr "model_not_found")])])
    [].

Section WithStr.

(** [str(l)] for a list [l] of strings *)
Variable str_of_list : list string -> string.

(** [ModelRouter.resolve] *)
Definition resolve (model_name : string) (_backends : pydict ModelBackend)
  : result ModelBackend :=
  match dict_get model_name _backends with
  | Some backend => Ok backend
  | None => Raise (model_not_found model_name (str_of_list (map fst _backends)))
  end.

End WithStr.

(** [ModelRouter.list_models] *)
Definition list_models (_backends : pydict ModelBackend) : list dict :=
  map (fun entry =>
         [("id", VStr (fst entry));
          ("object", VStr "model");
          ("created", VInt 0);
          ("owned_by", provider (snd entry));
          ("permission", VList []);
          ("root", model_id (snd entry));
          ("parent", VNone)])
      _backends.

(** [ModelRouter.get_default_model] *)
Definition get_default_model (_backends : pydict ModelBackend) : option string :=
  match _backends with
  | [] => None
  | (name, _) :: _ => Some name
  end.

(** [ModelRouter.model_count] *)
Definition model_count (_backends : pydict ModelBackend) : Z :=
  Z.of_nat (length _backends).

(** A catalog of two models. *)
Definition two_models : list (string * dict) :=
  [("m1", [("provider", VStr "gonka")]); ("m2", [("tier", VStr "premium")])].

End Router.

(** ** agent/tiering.py *)

Module Tiering.

Record TieringRule : Type := mkTieringRule {
  pattern : string;
  route_to : string
}.

Record TieringConfig : Type := mkTieringConfig {
  classification_model : string;
  reasoning_model : string;
  default_model : string;
  rules : list TieringRule
}.

(** [if s:] on a string *)
Definition str_truthy (s : string) : bool := negb (String.eqb s "").

(** [if s:] on an optional string *)
Definition opt_truthy (o : option string) : bool :=
  match o with
  | Some s => str_truthy s
  | None => false
  end.

(** [ModelTiering._resolve_tier] *)
Definition _resolve_tier (cfg : TieringConfig) (tier : string) : string :=
  if String.eqb tier "classification_model" then classification_model cfg
  else if String.eqb tier "classification" then classification_model cfg
  else if String.eqb tier "reasoning_model" then reasoning_model cfg
  else if String.eqb tier "reasoning" then reasoning_model cfg
  else if String.eqb tier "default_model" then default_model cfg
  else if String.eqb tier "default" then default_model cfg
  else "".

(** One step of the generator [part.get("text", "") for part in content
    if part.get("type") == "text"]. *)
Definition part_text (part : value) : result (option value) :=
  match part with
  | VDict d =>
      if eq_str (dict_get "type" d) "text"
      then Ok (Some (dict_get_default "text" (VStr "") d))
      else Ok None
  | _ => Raise AttributeError
  end.

Fixpoint collect_texts (parts : list value) : result (list value) :=
  match parts with
  | [] => Ok []
  | part :: rest =>
      bind (part_text part) (fun t =>
      bind (collect_texts rest) (fun ts =>
      Ok (match t with Some v => v :: ts | None => ts end)))
  end.

(** [" ".join] accepts strings only. *)
Fixpoint all_str (vs : list value) : result (list string) :=
  match vs with
  | [] => Ok []
  | VStr s :: rest => bind (all_str rest) (fun ss => Ok (s :: ss))
  | _ :: _ => Raise TypeError
  end.

Definition join_text_parts (parts : list value) : result string :=
  bind (collect_texts parts) (fun vs =>
  bind (all_str vs) (fun ss => Ok (String.concat " " ss))).

(** The loop of [_get_last_user_message], over the reversed list. *)
Fixpoint first_user_content (msgs : list dict) : result string :=
  match msgs with
  | [] => Ok ""
  | msg :: rest =>
      if eq_str (dict_get "role" msg) "user" then
        match dict_get_default "content" (VStr "") msg with
        | VStr s => Ok s
        | VList parts => join_text_parts parts
        | _ => first_user_content rest
        end
      else first_user_content rest
  end.

(** [ModelTiering._get_last_user_message] *)
Definition _get_last_user_message (messages : list dict) : result string :=
  first_user_content (rev messages).

Section WithRegex.

(** [re_search p s]: [re.compile(p, re.IGNORECASE).search(s)] finds a match. *)
Variable re_search : string -> string -> bool.

(** The rule loop of [resolve_model]. *)
Fixpoint match_rules (cfg : TieringConfig) (last_user_msg : string)
    (rs : list TieringRule) : option string :=
  match rs with
  | [] => None
  | rule :: rest =>
      if re_search (pattern rule) last_user_msg then
        let model := _resolve_tier cfg (route_to rule) in
        if str_truthy model then Some model
        else match_rules cfg last_user_msg rest
      else match_rules cfg last_user_msg rest
  end.

(** The tail of [resolve_model]: rule-based routing on the last user
    message, then the default. *)
Definition route_by_rules (cfg : TieringConfig) (messages : list dict) : result string :=
  bind (_get_last_user_message messages) (fun last_user_msg =>
    match (if str_truthy last_user_msg
           then match_rules cfg last_user_msg (rules cfg) else None) with
    | Some model => Ok model
    | None => Ok (default_model cfg)
    end).

(** [ModelTiering.resolve_model] *)
Definition resolve_model (cfg : TieringConfig) (messages : list dict)
    (requested_model tier_hint : option string) : result string :=
  let hinted :=
    match tier_hint with
    | Some h => if str_truthy h then _resolve_tier cfg h else ""
    | None => ""
    end in
  if str_truthy hinted then Ok hinted
  else
    match requested_model with
    | Some m => if str_truthy m then Ok m else route_by_rules cfg messages
    | None => route_by_rules cfg messages
    end.

End WithRegex.

(** The hints the specification recognises, with the configured model of each. *)
Definition recognized_hints (cfg : TieringConfig) : list (string * string) :=
  [("classification", classification_model cfg);
   ("reasoning", reasoning_model cfg);
   ("default", default_model cfg);
   ("classification_model", classification_model cfg);
   ("reasoning_model", reasoning_model cfg);
   ("default_model", default_model cfg)].


(** ASCII lower case. *)
Definition lower (c : ascii) : ascii :=
  let n := nat_of_ascii c in
  if (65 <=? n)%nat && (n <=? 90)%nat then ascii_of_nat (n + 32) else c.

Fixpoint lower_str (s : string) : string :=
  match s with
  | EmptyString => EmptyString
  | String c s' => String (lower c) (lower_str s')
  end.

Fixpoint is_substring (p s : string) : bool :=
  String.prefix p s ||
  match s with
  | EmptyString => false
  | String _ s' => is_substring p s'
  end.

(** [re.compile(p, re.IGNORECASE).search(s)] for a pattern [p] without
    metacharacters (ASCII letters, digits and spaces): a case-insensitive
    substring test. *)
Definition literal_search (p s : string) : bool :=
  is_substring (lower_str p) (lower_str s).

(** The configured model of a recognised hint; empty for no hint, an
    unknown hint, or an unconfigured tier. *)
Definition hint_model (cfg : TieringConfig) (tier_hint : option string) : string :=
  match tier_hint with
  | Some h =>
      match dict_get h (recognized_hints cfg) with
      | Some m => m
      | None => EmptyString
      end
  | None => EmptyString
  end.







(** A configuration with one rule, whose pattern is the default one of
    [reload] (the empty pattern, which matches every string). *)
Definition catch_all : TieringConfig :=
  mkTieringConfig "small" "big" "mid" [mkTieringRule "" "reasoning"].

Definition user_msg (content : string) : dict :=
  [("role", VStr "user"); ("content", VStr content)].

End Tiering.

(** ** gateway/metering.py *)

Module Metering.

(** The [UsageRecord] dataclass; token counts are whatever the caller passes. *)
Record UsageRecord : Type := mkUsageRecord {
  api_key : string;
  model : string;
  input_tokens : value;
  output_tokens : value;
  total_tokens : value;
  latency_ms : Q;
  timestamp : Q;
  session_id : option string
}.

(** A row of the [usage] table. *)
Record Row : Type := mkRow {
  r_api_key : string;
  r_model : string;
  r_input_tokens : Z;
  r_output_tokens : Z;
  r_total_tokens : Z;
  r_latency_ms : Q;
  r_session_id : option string;
  r_timestamp : Q
}.

(** SQL aggregates. Over no rows, [COUNT] is 0 and the others are NULL,
    which [dict(row)] turns into [None]. *)
Definition sql_count (rows : list Row) : value := VInt (Z.of_nat (length rows)).

Definition sql_sum (xs : list Z) : value :=
  match xs with
  | [] => VNone
  | _ :: _ => VInt (fold_right Z.add 0%Z xs)
  end.

Definition sql_avg (xs : list Q) : value :=
  match xs with
  | [] => VNone
  | _ :: _ => VFloat (fold_right Qplus 0%Q xs / inject_Z (Z.of_nat (length xs)))%Q
  end.

Definition sql_min (xs : list Q) : value :=
  match xs with
  | [] => VNone
  | x :: xs' => VFloat (fold_left (fun m t => if Qltb t m then t else m) xs' x)
  end.

Definition sql_max (xs : list Q) : value :=
  match xs with
  | [] => VNone
  | x :: xs' => VFloat (fold_left (fun m t => if Qltb m t then t else m) xs' x)
  end.

(** [COUNT(DISTINCT col)] on a text column *)
Definition sql_count_distinct (xs : list string) : value :=
  VInt (Z.of_nat (length (remove_dups xs))).

(** [COALESCE(v, 0)] *)
Definition coalesce0 (v : value) : value :=
  match v with
  | VNone => VInt 0
  | _ => v
  end.

(** [WHERE api_key = ? AND timestamp > ?] *)
Definition key_slice (api_key : string) (since : Q) (table : list Row) : list Row :=
  List.filter (fun r => String.eqb (r_api_key r) api_key && Qltb since (r_timestamp r)) table.

(** [WHERE model = ? AND timestamp > ?] *)
Definition model_slice (model : string) (since : Q) (table : list Row) : list Row :=
  List.filter (fun r => String.eqb (r_model r) model && Qltb since (r_timestamp r)) table.

(** [WHERE session_id = ?]: a NULL session id matches nothing. *)
Definition session_slice (session_id : string) (table : list Row) : list Row :=
  List.filter (fun r => match r_session_id r with
                        | Some s => String.eqb s session_id
                        | None => false
                        end) table.

(** [WHERE timestamp > ?] *)
Definition since_slice (since : Q) (table : list Row) : list Row :=
  List.filter (fun r => Qltb since (r_timestamp r)) table.

(** [UsageMeter.get_usage_by_key] *)
Definition get_usage_by_key (table : list Row) (api_key : string) (since : Q) : dict :=
  let rows := key_slice api_key since table in
  [("request_count", sql_count rows);
   ("total_input", coalesce0 (sql_sum (map r_input_tokens rows)));
   ("total_output", coalesce0 (sql_sum (map r_output_tokens rows)));
   ("total_tokens", coalesce0 (sql_sum (map r_total_tokens rows)));
   ("avg_latency_ms", coalesce0 (sql_avg (map r_latency_ms rows)))].

(** [UsageMeter.get_usage_by_model] *)
Definition get_usage_by_model (table : list Row) (model : string) (since : Q) : dict :=
  let rows := model_slice model since table in
  [("request_count", sql_count rows);
   ("total_tokens", coalesce0 (sql_sum (map r_total_tokens rows)));
   ("avg_latency_ms", coalesce0 (sql_avg (map r_latency_ms rows)))].

(** [UsageMeter.get_usage_by_session] *)
Definition get_usage_by_session (table : list Row) (session_id : string) : dict :=
  let rows := session_slice session_id table in
  [("request_count", sql_count rows);
   ("total_input", coalesce0 (sql_sum (map r_input_tokens rows)));
   ("total_output", coalesce0 (sql_sum (map r_output_tokens rows)));
   ("total_tokens", coalesce0 (sql_sum (map r_total_tokens rows)));
   ("avg_latency_ms", coalesce0 (sql_avg (map r_latency_ms rows)));
   ("first_request", sql_min (map r_timestamp rows));
   ("last_request", sql_max (map r_timestamp rows))].

(** [UsageMeter.get_global_stats] *)
Definition get_global_stats (table : list Row) (since : Q) : dict :=
  let rows := since_slice since table in
  [("total_requests", sql_count rows);
   ("active_keys", sql_count_distinct (map r_api_key rows));
   ("active_models", sql_count_distinct (map r_model rows));
   ("total_tokens", coalesce0 (sql_sum (map r_total_tokens rows)));
   ("avg_latency_ms", coalesce0 (sql_avg (map r_latency_ms rows)))].

(** Every field of an aggregate is the integer zero. *)
Definition all_zero (d : dict) : Prop := Forall (fun kv => snd kv = VInt 0) d.



(** A ledger with one call, of session [s2]. *)
Definition one_call : list Row :=
  [mkRow "gk-dev" "m1" 3 1 4 12 (Some "s2") 100].

End Metering.

(** ** gateway/main.py: the stream relay *)

Module Stream.

Import Metering.

(** The line feed character. *)
Definition nl : string := String (ascii_of_nat 10) EmptyString.

(** Characters removed by [str.strip()] (ASCII range). *)
Definition is_space (c : ascii) : bool :=
  let n := nat_of_ascii c in
  ((9 <=? n)%nat && (n <=? 13)%nat) || ((28 <=? n)%nat && (n <=? 32)%nat).

Fixpoint lstrip (s : string) : string :=
  match s with
  | EmptyString => EmptyString
  | String c s' => if is_space c then lstrip s' else s
  end.

(** [s.strip()] *)
Definition strip (s : string) : string :=
  String.rev (lstrip (String.rev (lstrip s))).

(** [s[n:]] for [n >= 0] *)
Fixpoint str_drop (n : nat) (s : string) : string :=
  match n, s with
  | O, _ => s
  | S n', EmptyString => EmptyString
  | S n', String _ s' => str_drop n' s'
  end.

(** What the backend does with the forwarded request. *)
Inductive upstream : Type :=
| Unreachable
    (* a [ConnectError] or [TimeoutException] before any response *)
| Responded (status_code : Z) (body : string) (lines : list string) (broken : bool).
    (* a response; [lines] is what [aiter_lines] yields, after which the
       connection times out when [broken] is true *)

(** How the [async for] loop over the lines ends. *)
Inductive relay_end : Type :=
| SawDone
| Exhausted
| Failed (e : exn).

(** The usage ledger and the rate limiter, as the relay sees them. *)
Record stores : Type := mkStores {
  ledger : list UsageRecord;
  counters : gmap string RateLimit.WindowCounter
}.

(** Values [sqlite3] binds to the [INTEGER NOT NULL] columns of [usage]. *)
Definition storable (v : value) : bool :=
  match v with
  | VNone | VList _ | VDict _ => false
  | _ => true
  end.

(** [UsageMeter.record], on the ledger. *)
Definition record (r : UsageRecord) (l : list UsageRecord) : result (list UsageRecord) :=
  if storable (input_tokens r) && storable (output_tokens r) && storable (total_tokens r)
  then Ok (l ++ [r])
  else Raise (ExternalError "sqlite3.Error").

(** The body of the [try] around [json.loads]: the new [total_tokens]. *)
Definition update_usage (chunk : value) (total_tokens : value) : result value :=
  match chunk with
  | VDict c =>
      match dict_get "usage" c with
      | Some usage =>
          if truthy usage then
            match usage with
            | VDict u => Ok (dict_get_default "total_tokens" (VInt 0) u)
            | _ => Raise AttributeError
            end
          else Ok total_tokens
      | None => Ok total_tokens
      end
  | _ => Raise AttributeError
  end.

Section WithJson.

(** [json.loads]; [None] stands for [JSONDecodeError]. *)
Variable json_loads : string -> option value.
(** [json.dumps] *)
Variable json_dumps : value -> string.

(** The [try ... except json.JSONDecodeError: pass] block of one line:
    the new [total_tokens]. *)
Definition line_update (data_str : string) (total_tokens : value) : result value :=
  match json_loads data_str with
  | Some chunk => update_usage chunk total_tokens
  | None => Ok total_tokens
  end.

(** The [async for line in resp.aiter_lines()] loop: the frames yielded,
    the final [total_tokens] and how the loop ended. *)
Fixpoint relay_lines (lines : list string) (total_tokens : value)
  : list string * value * relay_end :=
  match lines with
  | [] => ([], total_tokens, Exhausted)
  | line :: rest =>
      if String.prefix "data: " line then
        let data_str := str_drop 6 line in
        if String.eqb (strip data_str) "[DONE]" then
          (["data: [DONE]" +:+ nl +:+ nl], total_tokens, SawDone)
        else
          match line_update data_str total_tokens with
          | Ok total_tokens' =>
              let '(frames, total, e) := relay_lines rest total_tokens' in
              ((line +:+ nl +:+ nl) :: frames, total, e)
          | Raise e => ([], total_tokens, Failed e)
          end
      else relay_lines rest total_tokens
  end.

(** The frame sent when the backend cannot be reached. *)
Definition error_frame (model_name : string) : string :=
  "data: " +:+
  json_dumps (VDict [("error", VDict [
      ("message", VStr ("Backend '" +:+ model_name +:+ "' unavailable"));
      ("type", VStr "server_error");
      ("code", VStr "backend_unavailable")])])
  +:+ nl +:+ nl.

(** "Record usage after stream completes": [t1], [t2], [t3] are the three
    clock readings (latency, record timestamp, [record_tokens]). *)
Definition meter (api_key model_name : string) (session_id : option string)
    (start_time t1 t2 t3 : Q) (total_tokens : value) (st : stores)
  : result unit * stores :=
  let latency_ms := ((t1 - start_time) * 1000)%Q in
  let r := mkUsageRecord api_key model_name (VInt 0) total_tokens total_tokens
             latency_ms t2 session_id in
  match record r (ledger st) with
  | Ok l => (Ok tt, mkStores l (RateLimit.record_tokens t3 api_key total_tokens (counters st)))
  | Raise e => (Raise e, st)
  end.

(** [event_generator] of [_stream_response], run to its end: the frames
    yielded, the outcome and the stores afterwards. *)
Definition event_generator (up : upstream) (api_key model_name : string)
    (session_id : option string) (start_time t1 t2 t3 : Q) (st : stores)
  : list string * result unit * stores :=
  match up with
  | Unreachable =>
      let '(r, st') := meter api_key model_name session_id start_time t1 t2 t3 (VInt 0) st in
      ([error_frame model_name], r, st')
  | Responded status_code body lines broken =>
      if negb (status_code =? 200)%Z then
        (["data: " +:+ body +:+ nl +:+ nl], Ok tt, st)
      else
        let '(frames, total_tokens, e) := relay_lines lines (VInt 0) in
        match e with
        | Failed ex => (frames, Raise ex, st)
        | SawDone =>
            let '(r, st') :=
              meter api_key model_name session_id start_time t1 t2 t3 total_tokens st in
            (frames, r, st')
        | Exhausted =>
            let '(r, st') :=
              meter api_key model_name session_id start_time t1 t2 t3 total_tokens st in
            (if broken then frames ++ [error_frame model_name] else frames, r, st')
        end
  end.

(** The [StreamingResponse] of [_stream_response], once its generator
    has been consumed. *)
Record StreamingResponse : Type := mkStreamingResponse {
  content : list string;
  media_type : string;
  headers : list (string * string)
}.

(** [_stream_response]: [total_tokens] starts at 0 inside the generator. *)
Definition _stream_response (up : upstream) (api_key model_name : string)
    (session_id : option string) (start_time t1 t2 t3 : Q) (st : stores)
  : StreamingResponse * result unit * stores :=
  let '(frames, r, st') :=
    event_generator up api_key model_name session_id start_time t1 t2 t3 st in
  (mkStreamingResponse frames "text/event-stream"
     [("Cache-Control", "no-cache"); ("Connection", "keep-alive");
      ("X-Accel-Buffering", "no")],
   r, st').





End WithJson.







(** The double quote character. *)
Definition dq : string := String (ascii_of_nat 34) EmptyString.

(** The text of a chunk that carries only a usage block, and its value. *)
Definition usage_chunk (n : Z) : string :=
  "{" +:+ dq +:+ "usage" +:+ dq +:+ ": {" +:+ dq +:+ "total_tokens" +:+ dq +:+ ": "
  +:+ pretty n +:+ "}}".

Definition usage_value (n : Z) : value :=
  VDict [("usage", VDict [("total_tokens", VInt n)])].

(** A decoder that agrees with [json.loads] on the usage chunks for 10 and
    5 tokens, and rejects every other text. *)
Definition table_loads (s : string) : option value :=
  if String.eqb s (usage_chunk 10) then Some (usage_value 10)
  else if String.eqb s (usage_chunk 5) then Some (usage_value 5)
  else None.

(** An encoder for error envelopes; the text itself is not inspected. *)
Definition opaque_dumps (v : value) : string := "{}".

(** A stream whose usage shrinks from 10 to 5 tokens before the terminator. *)
Definition shrinking_stream : list string :=
  ["data: " +:+ usage_chunk 10; "data: " +:+ usage_chunk 5; "data: [DONE]"].

Definition no_stores : stores := mkStores [] ∅.

End Stream.

(** ** gateway/auth.py *)

Module Auth.

Record APIKey : Type := mkAPIKey {
  key : string;
  owner : string;
  tier : string;
  rpm_limit : Z;
  tpm_limit : Z;
  created_at : Q;
  active : bool
}.





(** [AuthManager.add_key], on the in-memory map. *)
Definition add_key (now : Q) (key owner tier : string) (rpm_limit tpm_limit : Z)
    (_keys : pydict APIKey) : APIKey * pydict APIKey :=
  let api_key := mkAPIKey key owner tier rpm_limit tpm_limit now true in
  (api_key, dict_set key api_key _keys).



(** A store with one four-character key. *)
Definition short_key : APIKey := mkAPIKey "sk-1" "dev" "standard" 60 100000 0 true.


(** [extract_api_key]; [authorization] is the header, if the request has it. *)
Definition extract_api_key (authorization : option string) : result string :=
  let auth_header := match authorization with Some h => h | None => EmptyString end in
  if String.prefix "Bearer " auth_header then Ok (Stream.str_drop 7 auth_header)
  else
    Raise (HTTPException 401
      (VDict [("error", VDict [
          ("message",
           VStr "Missing or invalid API key. Provide via: Authorization: Bearer <key>");
          ("type", VStr "invalid_request_error");
          ("code", VStr "invalid_api_key")])])
      []).

(** The manager with its key file; [files] maps a path to the JSON
    document last written to it (writing is taken to succeed). *)
Module Manager.

Record AuthManager : Type := mkAuthManager {
  _keys : pydict APIKey;
  _keys_file : string
}.

(** The document [save_keys] dumps. *)
Definition keys_document (keys : pydict APIKey) : value :=
  VDict [("keys",
          VList (map (fun entry =>
                        let k := snd entry in
                        VDict [("key", VStr (key k));
                               ("owner", VStr (owner k));
                               ("tier", VStr (tier k));
                               ("rpm_limit", VInt (rpm_limit k));
                               ("tpm_limit", VInt (tpm_limit k));
                               ("created_at", VFloat (created_at k));
                               ("active", VBool (active k))])
                     keys))].

(** [AuthManager.save_keys] *)
Definition save_keys (filepath : string) (mgr : AuthManager) (files : gmap string value)
  : gmap string value :=
  let filepath := if Tiering.str_truthy filepath then filepath else _keys_file mgr in
  if Tiering.str_truthy filepath
  then <[filepath := keys_document (_keys mgr)]> files
  else files.

(** [AuthManager.add_key]; [now] is the reading of the [created_at] factory. *)
Definition add_key (now : Q) (key owner tier : string) (rpm_limit tpm_limit : Z)
    (mgr : AuthManager) (files : gmap string value)
  : APIKey * AuthManager * gmap string value :=
  let api_key := mkAPIKey key owner tier rpm_limit tpm_limit now true in
  let mgr' := mkAuthManager (dict_set key api_key (_keys mgr)) (_keys_file mgr) in
  (api_key, mgr', save_keys EmptyString mgr' files).

(** [self._keys[key].active = False] *)
Definition deactivate (k : APIKey) : APIKey :=
  mkAPIKey (Auth.key k) (owner k) (tier k) (rpm_limit k) (tpm_limit k) (created_at k) false.

(** [AuthManager.revoke_key] *)
Definition revoke_key (key : string) (mgr : AuthManager) (files : gmap string value)
  : bool * AuthManager * gmap string value :=
  match dict_get key (_keys mgr) with
  | Some k =>
      let mgr' := mkAuthManager (dict_set key (deactivate k) (_keys mgr)) (_keys_file mgr) in
      (true, mgr', save_keys EmptyString mgr' files)
  | None => (false, mgr, files)
  end.

(** [AuthManager.validate] *)
Definition validate (key : string) (mgr : AuthManager) : option APIKey :=
  match dict_get key (_keys mgr) with
  | Some api_key => if active api_key then Some api_key else None
  | None => None
  end.

(** [AuthManager.key_count] *)
Definition key_count (mgr : AuthManager) : Z := Z.of_nat (length (_keys mgr)).

(** A manager without a key file, holding the short key. *)
Definition one_key : AuthManager := mkAuthManager [(key short_key, short_key)] EmptyString.

End Manager.

End Auth.

(** ** gateway/errors.py and gateway/main.py: the request pipeline *)

Module Gateway.

(** What a handler returns. *)
Inductive response : Type :=
| JSONResponse (status_code : Z) (content : value)
| StreamingResponse (r : Stream.StreamingResponse).

(** [openai_error] *)
Definition openai_error (status_code : Z) (message error_type code : string) : response :=
  JSONResponse status_code
    (VDict [("error", VDict [("message", VStr message);
                             ("type", VStr error_type);
                             ("code", VStr code)])]).

(** [backend_unavailable] *)
Definition backend_unavailable (model : string) : response :=
  openai_error 503
    ("Model backend '" +:+ model +:+ "' is currently unavailable. Please retry.")
    "server_error" "backend_unavailable".

(** The parts of a request the handler reads: three headers and the
    body, [None] when it is not JSON. *)
Record Request : Type := mkRequest {
  authorization : option string;
  x_gonka_tier : option string;
  x_gonka_session_id : option string;
  json : option value
}.

(** The module-level stores of [gateway/main.py]. *)
Record Gateway : Type := mkGateway {
  auth_manager : Auth.Manager.AuthManager;
  rate_limiter : gmap string RateLimit.WindowCounter;
  usage_meter : list Metering.UsageRecord;
  model_router : pydict Router.ModelBackend;
  session_manager : Sessions.SessionManager;
  model_tiering : Tiering.TieringConfig
}.

Definition set_rate_limiter (c : gmap string RateLimit.WindowCounter) (gw : Gateway)
  : Gateway :=
  mkGateway (auth_manager gw) c (usage_meter gw) (model_router gw)
    (session_manager gw) (model_tiering gw).

Definition set_session_manager (m : Sessions.SessionManager) (gw : Gateway) : Gateway :=
  mkGateway (auth_manager gw) (rate_limiter gw) (usage_meter gw) (model_router gw)
    m (model_tiering gw).

Definition set_meters (l : list Metering.UsageRecord)
    (c : gmap string RateLimit.WindowCounter) (gw : Gateway) : Gateway :=
  mkGateway (auth_manager gw) c l (model_router gw) (session_manager gw)
    (model_tiering gw).

(** The clock readings of one call, in the order the handler takes them. *)
Record Clock : Type := mkClock {
  t_start : Q;        (* [start_time] *)
  t_count : Q;        (* [request_count] *)
  t_next : Q;         (* [_estimate_retry_after] or [add_request] *)
  t_created : Q;      (* [created_at] of a new session *)
  t_accessed : Q;     (* [last_accessed] of a new session *)
  t_touch : Q;        (* [touch] in [get_or_create] *)
  t_history : Q;      (* [touch] in [get_history] *)
  t_latency : Q;      (* [latency_ms] *)
  t_record : Q;       (* [timestamp] of the usage record *)
  t_tokens : Q;       (* [record_tokens] *)
  t_append : Q        (* [touch] in [append_messages] *)
}.

(** A message list as the session store holds it: a JSON list of objects. *)
Fixpoint as_messages_list (l : list value) : option (list dict) :=
  match l with
  | [] => Some []
  | VDict d :: rest =>
      match as_messages_list rest with
      | Some ds => Some (d :: ds)
      | None => None
      end
  | _ :: _ => None
  end.

Definition as_messages (v : value) : option (list dict) :=
  match v with
  | VList l => as_messages_list l
  | _ => None
  end.

Definition of_messages (ms : list dict) : value := VList (map VDict ms).

(** How the handler goes on after its preparation steps. *)
Inductive prepared : Type :=
| Answer (r : result response)
    (* the call ends: a response is returned or an exception raised *)
| Forward (is_streaming : bool) (backend : Router.ModelBackend) (body : dict)
    (api_key_str model_name : string).
    (* the body is sent to the backend *)

(** What the backend does with a non-streaming request. *)
Inductive reply : Type :=
| NoConnection                               (* [ConnectError], [TimeoutException] *)
| Reply (status_code : Z) (content : option value).
    (* a response; [content] is [resp.json()], [None] when that raises *)

Section WithLibraries.

Variable re_search : string -> string -> bool.
Variable str_of_list : list string -> string.
Variable json_loads : string -> option value.
Variable json_dumps : value -> string.

(** [chat_completions] up to "Forward to vLLM backend". The embedding
    covers bodies whose [model] is a string when it is truthy, and whose
    [messages] is a list of objects where the handler hands it to the
    tiering resolver or the session store; it is [None] elsewhere. *)
Definition prepare (clk : Clock) (req : Request) (gw : Gateway)
  : option (prepared * Gateway) :=
  match Auth.extract_api_key (authorization req) with
  | Raise e => Some (Answer (Raise e), gw)
  | Ok api_key_str =>
  match Auth.Manager.validate api_key_str (auth_manager gw) with
  | None =>
      Some (Answer (Ok (openai_error 401 "Invalid API key" "invalid_request_error"
                          "invalid_api_key")), gw)
  | Some api_key =>
  let '(checked, counters) :=
    RateLimit.check_request (t_count clk) (t_next clk) api_key_str
      (Auth.rpm_limit api_key) (rate_limiter gw) in
  let gw := set_rate_limiter counters gw in
  match checked with
  | Raise e => Some (Answer (Raise e), gw)
  | Ok _ =>
  match json req with
  | None =>
      Some (Answer (Ok (openai_error 400 "Invalid JSON body" "invalid_request_error"
                          "bad_request")), gw)
  | Some (VDict body) =>
  (* Resolve model *)
  let chosen : option (value * dict) + response :=
    match dict_get "model" body with
    | Some v =>
        if truthy v then inl (Some (v, body))
        else
          match Router.get_default_model (model_router gw) with
          | Some name =>
              if Tiering.str_truthy name
              then inl (Some (VStr name, dict_set "model" (VStr name) body))
              else inr (openai_error 400 "No model specified and no default available"
                          "invalid_request_error" "model_required")
          | None => inr (openai_error 400 "No model specified and no default available"
                           "invalid_request_error" "model_required")
          end
    | None =>
        match Router.get_default_model (model_router gw) with
        | Some name =>
            if Tiering.str_truthy name
            then inl (Some (VStr name, dict_set "model" (VStr name) body))
            else inr (openai_error 400 "No model specified and no default available"
                        "invalid_request_error" "model_required")
        | None => inr (openai_error 400 "No model specified and no default available"
                         "invalid_request_error" "model_required")
        end
    end in
  match chosen with
  | inr r => Some (Answer (Ok r), gw)
  | inl None => None
  | inl (Some (VStr model_name, body)) =>
  (* Model tiering *)
  let tiered : option (result (string * dict)) :=
    if Tiering.opt_truthy (x_gonka_tier req) then
      match as_messages (dict_get_default "messages" (VList []) body) with
      | Some messages =>
          match Tiering.resolve_model re_search (model_tiering gw) messages
                  (Some model_name) (x_gonka_tier req) with
          | Ok tiered_model =>
              if Tiering.str_truthy tiered_model
              then Some (Ok (tiered_model, dict_set "model" (VStr tiered_model) body))
              else Some (Ok (model_name, body))
          | Raise e => Some (Raise e)
          end
      | None => None
      end
    else Some (Ok (model_name, body)) in
  match tiered with
  | None => None
  | Some (Raise e) => Some (Answer (Raise e), gw)
  | Some (Ok (model_name, body)) =>
  match Router.resolve str_of_list model_name (model_router gw) with
  | Raise e => Some (Answer (Raise e), gw)
  | Ok backend =>
  (* Agent session integration *)
  let merged : option (dict * Gateway) :=
    match x_gonka_session_id req with
    | Some session_id =>
        if Tiering.str_truthy session_id then
          match as_messages (dict_get_default "messages" (VList []) body) with
          | Some messages =>
              let '(_, mgr1) :=
                Sessions.get_or_create (t_created clk) (t_accessed clk) (t_touch clk)
                  session_id api_key_str (session_manager gw) in
              let '(forwarded, mgr2) :=
                Sessions.inject_history (t_history clk) session_id messages mgr1 in
              Some (dict_set "messages" (of_messages forwarded) body,
                    set_session_manager mgr2 gw)
          | None => None
          end
        else Some (body, gw)
    | None => Some (body, gw)
    end in
  match merged with
  | None => None
  | Some (body, gw) =>
      let is_streaming := truthy (dict_get_default "stream" (VBool false) body) in
      Some (Forward is_streaming backend body api_key_str model_name, gw)
  end
  end
  end
  | inl (Some (_, _)) => None
  end
  | Some _ => Some (Answer (Raise AttributeError), gw)
  end
  end
  end
  end.

(** The assistant message [_forward_response] saves with the session:
    [choices[0].get("message", {})] when it is truthy. [None] stands for a
    message that is not an object, which the session store of this
    development does not hold. *)
Definition assistant_message (res : dict) : option (result (list dict)) :=
  let choices := dict_get_default "choices" (VList []) res in
  if truthy choices then
    match choices with
    | VList (VDict choice :: _) =>
        let assistant_msg := dict_get_default "message" (VDict []) choice in
        if truthy assistant_msg then
          match assistant_msg with
          | VDict m => Some (Ok [m])
          | _ => None
          end
        else Some (Ok [])
    | VList _ => Some (Raise AttributeError)
    | VStr _ => Some (Raise AttributeError)
    | VDict _ => Some (Raise (ExternalError "KeyError"))
    | _ => Some (Raise TypeError)
    end
  else Some (Ok []).

(** [_forward_response] *)
Definition _forward_response (clk : Clock) (r : reply) (body : dict)
    (api_key model_name : string) (session_id : option string) (gw : Gateway)
  : option (result response * Gateway) :=
  match r with
  | NoConnection => Some (Ok (backend_unavailable model_name), gw)
  | Reply _ None => Some (Raise (ExternalError "json.JSONDecodeError"), gw)
  | Reply status_code (Some result) =>
      if negb (status_code =? 200)%Z then Some (Ok (JSONResponse status_code result), gw)
      else
        match result with
        | VDict res =>
            match dict_get_default "usage" (VDict []) res with
            | VDict usage =>
                let latency_ms := ((t_latency clk - t_start clk) * 1000)%Q in
                let record :=
                  Metering.mkUsageRecord api_key model_name
                    (dict_get_default "prompt_tokens" (VInt 0) usage)
                    (dict_get_default "completion_tokens" (VInt 0) usage)
                    (dict_get_default "total_tokens" (VInt 0) usage)
                    latency_ms (t_record clk) session_id in
                match Stream.record record (usage_meter gw) with
                | Raise e => Some (Raise e, gw)
                | Ok ledger =>
                    let gw :=
                      set_meters ledger
                        (RateLimit.record_tokens (t_tokens clk) api_key
                           (dict_get_default "total_tokens" (VInt 0) usage)
                           (rate_limiter gw)) gw in
                    if Tiering.opt_truthy session_id then
                      match session_id,
                            as_messages (dict_get_default "messages" (VList []) body),
                            assistant_message res with
                      | Some sid, Some messages, Some (Ok reply_messages) =>
                          let new_messages := slice_from (-1) messages ++ reply_messages in
                          Some (Ok (JSONResponse 200 result),
                                set_session_manager
                                  (Sessions.append_messages (t_append clk) sid new_messages
                                     (session_manager gw)) gw)
                      | Some _, Some _, Some (Raise e) => Some (Raise e, gw)
                      | _, _, _ => None
                      end
                    else Some (Ok (JSONResponse 200 result), gw)
                end
            | _ => Some (Raise AttributeError, gw)
            end
        | _ => Some (Raise AttributeError, gw)
        end
  end.

(** [chat_completions]: [on_post] and [on_stream] say what the backend
    does with a non-streaming and with a streaming request. The response
    of a streamed call is the one obtained once the stream has been
    consumed. *)
Definition chat_completions (clk : Clock) (on_post : reply) (on_stream : Stream.upstream)
    (req : Request) (gw : Gateway) : option (result response * Gateway) :=
  match prepare clk req gw with
  | None => None
  | Some (Answer r, gw) => Some (r, gw)
  | Some (Forward is_streaming backend body api_key_str model_name, gw) =>
      if is_streaming then
        let '(r, _, st) :=
          Stream._stream_response json_loads json_dumps on_stream api_key_str model_name
            (x_gonka_session_id req) (t_start clk) (t_latency clk) (t_record clk)
            (t_tokens clk) (Stream.mkStores (usage_meter gw) (rate_limiter gw)) in
        Some (Ok (StreamingResponse r),
              set_meters (Stream.ledger st) (Stream.counters st) gw)
      else
        _forward_response clk on_post body api_key_str model_name
          (x_gonka_session_id req) gw
  end.

End WithLibraries.

(** The model a call is routed to: the configured model of a recognised
    tier hint, or else the requested model. *)
Definition chosen_model (cfg : Tiering.TieringConfig) (tier_hint : option string)
    (requested : string) : string :=
  if Tiering.str_truthy (Tiering.hint_model cfg tier_hint)
  then Tiering.hint_model cfg tier_hint
  else requested.

(** The session id of a request that names one. *)
Definition session_of_request (req : Request) : option string :=
  match x_gonka_session_id req with
  | Some sid => if Tiering.str_truthy sid then Some sid else None
  | None => None
  end.

(** The body and the stores of a call that reaches the backend: [body]
    is the client's body, [requested] its model, [messages] its messages
    and [k] the caller's key. *)
Definition forwarded_body (clk : Clock) (req : Request) (gw : Gateway) (k : string)
    (body : dict) (requested : string) (messages : list dict) : dict :=
  let body1 :=
    if Tiering.opt_truthy (x_gonka_tier req)
    then dict_set "model"
           (VStr (chosen_model (model_tiering gw) (x_gonka_tier req) requested)) body
    else body in
  match session_of_request req with
  | Some sid =>
      dict_set "messages"
        (of_messages
           (fst (Sessions.session_step (t_created clk) (t_accessed clk) (t_touch clk)
                   (t_history clk) sid k messages (session_manager gw))))
        body1
  | None => body1
  end.

Definition forwarded_gateway (clk : Clock) (req : Request) (gw : Gateway) (k : string)
    (rpm_limit : Z) (messages : list dict) : Gateway :=
  let gw1 :=
    set_rate_limiter
      (snd (RateLimit.check_request (t_count clk) (t_next clk) k rpm_limit
              (rate_limiter gw))) gw in
  match session_of_request req with
  | Some sid =>
      set_session_manager
        (snd (Sessions.session_step (t_created clk) (t_accessed clk) (t_touch clk)
                (t_history clk) sid k messages (session_manager gw))) gw1
  | None => gw1
  end.

(** A gateway with one key, two models, a reasoning tier and one session. *)
Definition demo_key : Auth.APIKey :=
  Auth.mkAPIKey "gk-demo-key-0001" "dev" "standard" 60 100000 0 true.

Definition demo_gateway : Gateway :=
  mkGateway
    (Auth.Manager.mkAuthManager [("gk-demo-key-0001", demo_key)] EmptyString)
    ∅ []
    [Router.backend_of ("m1", []); Router.backend_of ("big", [])]
    (Sessions.store_of
       (Sessions.session_of "s1"
          [Sessions.msg "user" "A"; Sessions.msg "assistant" "B"] 0) 3600 100)
    (Tiering.mkTieringConfig EmptyString "big" EmptyString []).

Definition demo_clock : Clock := mkClock 10 10 10 10 10 10 11 12 12 12 13.

(** The same gateway when the key has used its one request per minute. *)
Definition limited_key : Auth.APIKey :=
  Auth.mkAPIKey "gk-demo-key-0001" "dev" "free" 1 100000 0 true.

Definition limited_gateway : Gateway :=
  mkGateway
    (Auth.Manager.mkAuthManager [("gk-demo-key-0001", limited_key)] EmptyString)
    {[ "gk-demo-key-0001" := RateLimit.mkWindowCounter [9%Q] [] ]} []
    (model_router demo_gateway) (session_manager demo_gateway)
    (model_tiering demo_gateway).

(** A request without credentials, and one whose body is not JSON. *)
Definition anonymous_request : Request := mkRequest None None None None.

Definition garbled_request : Request :=
  mkRequest (Some "Bearer gk-demo-key-0001") None (Some "s1") None.

Definition demo_messages : list dict := [Sessions.msg "user" "C"; Sessions.msg "user" "D"].

Definition demo_body (stream : bool) : dict :=
  [("model", VStr "m1"); ("messages", of_messages demo_messages);
   ("stream", VBool stream); ("max_tokens", VInt 64)].

Definition demo_request (stream : bool) (tier : option string) : Request :=
  mkRequest (Some "Bearer gk-demo-key-0001") tier (Some "s1")
    (Some (VDict (demo_body stream))).


(** The status of a result: of the response returned, or of the HTTP
    exception raised. *)
Definition status_of_result (r : result response) : option Z :=
  match r with
  | Ok (JSONResponse status _) => Some status
  | Ok (StreamingResponse _) => Some 200%Z
  | Raise e => RateLimit.status_of e
  end.

End Gateway.

(** * Properties *)

(** ** Python data *)

Section PyFacts.

Context {A : Type}.

Lemma filter_sublist (f : A -> bool) (l : list A) : List.filter f l `sublist_of` l.
Proof.
  induction l as [|x l IH]; simpl; [constructor|].
  destruct (f x); [by apply sublist_skip | by apply sublist_cons].
Qed.

Lemma filter_split_length (f : A -> bool) (l : list A) :
  length (List.filter f l) + length (List.filter (fun x => negb (f x)) l) = length l.
Proof.
  induction l as [|x l IH]; simpl; [done|].
  destruct (f x); simpl; lia.
Qed.

(** A negative start within the list selects the last elements. *)
Lemma slice_from_last (k : Z) (l : list A) :
  (0 < k <= Z.of_nat (length l))%Z ->
  slice_from (- k) l = drop (length l - Z.to_nat k) l.
Proof.
  intros Hk. unfold slice_from.
  destruct (Z.ltb_spec (- k) 0) as [_|?]; [|lia].
  f_equal. lia.
Qed.

(** [l[-0:]] is the whole list. *)
Lemma slice_from_zero (l : list A) : slice_from (- 0) l = l.
Proof. unfold slice_from. simpl. by rewrite Z.min_l by lia. Qed.

End PyFacts.

Lemma Qltb_lt (x y : Q) : Qltb x y = true <-> (x < y)%Q.
Proof.
  unfold Qltb. rewrite negb_true_iff, <- not_true_iff_false, Qle_bool_iff.
  split; [apply Qnot_le_lt | apply Qlt_not_le].
Qed.

Lemma Qltb_ge (x y : Q) : Qltb x y = false <-> (y <= x)%Q.
Proof.
  unfold Qltb. rewrite negb_false_iff. apply Qle_bool_iff.
Qed.

(** ** Session store *)

Section SessionFacts.

Import Sessions.

Lemma trim_short (max_history : Z) (ms : list Message) :
  (Z.of_nat (length ms) <= max_history)%Z -> trim max_history ms = ms.
Proof.
  intros H. unfold trim. destruct (Z.ltb_spec max_history (Z.of_nat (length ms))); [lia|done].
Qed.

Lemma trim_long (max_history : Z) (ms : list Message) :
  (max_history < Z.of_nat (length ms))%Z ->
  (Z.of_nat (length (List.filter is_system ms)) < max_history)%Z ->
  trim max_history ms =
    List.filter is_system ms ++
    last_n (max_history - Z.of_nat (length (List.filter is_system ms)))
           (List.filter not_system ms).
Proof.
  intros Hlong Hsys. unfold trim.
  destruct (Z.ltb_spec max_history (Z.of_nat (length ms))); [|lia].
  f_equal. unfold last_n. apply slice_from_last.
  pose proof (filter_split_length is_system ms) as Hsplit.
  change (fun x => negb (is_system x)) with not_system in Hsplit. lia.
Qed.


Lemma append_messages_lookup (now : Q) (sid : string) (msgs : list Message)
    (mgr : SessionManager) (s : Session) :
  _sessions mgr !! sid = Some s ->
  _sessions (append_messages now sid msgs mgr) !! sid =
    Some (mkSession (session_id s) (api_key s)
            (trim (_max_history mgr) (messages s ++ msgs))
            (created_at s) now (metadata s)).
Proof.
  intros Hs. unfold append_messages. rewrite Hs. simpl. by rewrite lookup_insert_eq.
Qed.



(** The truncation scenario of the specification: the oldest non-system
    message is the one dropped. *)
Example append_messages_scenario :
  stored_history "s1"
    (append_messages 7 "s1" [msg "user" "u3"]
       (store_of (session_of "s1" five_messages 3) 3600 5)) =
  [msg "system" "S"; msg "assistant" "a1"; msg "user" "u2"; msg "assistant" "a2";
   msg "user" "u3"].
Proof.
  unfold stored_history.
  erewrite append_messages_lookup by apply lookup_singleton_eq.
  reflexivity.
Qed.


(** With as many system messages as MAX_HISTORY, [keep] is 0 and
    [non_system[-0:]] is the whole list: nothing is dropped. *)
Example trim_keep_zero :
  trim 1 [msg "system" "S"; msg "user" "u1"; msg "user" "u2"]
    = [msg "system" "S"; msg "user" "u1"; msg "user" "u2"].
Proof. reflexivity. Qed.

Lemma get_history_fst (now : Q) (sid : string) (mgr : SessionManager) :
  fst (get_history now sid mgr) = stored_history sid mgr.
Proof. unfold get_history, stored_history. by destruct (_sessions mgr !! sid). Qed.

Lemma inject_history_fst (now : Q) (sid : string) (I : list Message)
    (mgr : SessionManager) :
  fst (inject_history now sid I mgr) =
    match stored_history sid mgr with
    | [] => I
    | _ :: _ => merge (stored_history sid mgr) I
    end.
Proof.
  unfold inject_history.
  pose proof (get_history_fst now sid mgr) as Hh.
  destruct (get_history now sid mgr) as [history mgr']. simpl in Hh. subst history.
  by destruct (stored_history sid mgr).
Qed.

Lemma inject_history_snd (now : Q) (sid : string) (I : list Message)
    (mgr : SessionManager) :
  snd (inject_history now sid I mgr) = snd (get_history now sid mgr).
Proof.
  unfold inject_history.
  destruct (get_history now sid mgr) as [history mgr']. by destruct history.
Qed.

Lemma get_history_stored (now : Q) (sid : string) (mgr : SessionManager) :
  stored_history sid (snd (get_history now sid mgr)) = stored_history sid mgr.
Proof.
  unfold get_history, stored_history.
  destruct (_sessions mgr !! sid) as [s|] eqn:Hs; simpl; [|by rewrite Hs].
  by rewrite lookup_insert_eq.
Qed.

(** C2 (amended). [inject_history] returns the incoming list unchanged
    when the stored history is empty (or the session unknown), and
    otherwise the incoming system messages, then the stored non-system
    messages, then the incoming non-system messages; the stored history
    itself is left as it was. *)
Theorem inject_history_merge (now : Q) (sid : string) (I : list Message)
    (mgr : SessionManager) :
  fst (inject_history now sid I mgr) =
    match stored_history sid mgr with
    | [] => I
    | _ :: _ => merge (stored_history sid mgr) I
    end /\
  stored_history sid (snd (inject_history now sid I mgr)) = stored_history sid mgr.
Proof.
  split.
  - unfold inject_history.
    pose proof (get_history_fst now sid mgr) as Hh.
    destruct (get_history now sid mgr) as [history mgr']. simpl in Hh. subst history.
    by destruct (stored_history sid mgr).
  - rewrite inject_history_snd. apply get_history_stored.
Qed.

(** C2 as stated fails: with an empty stored history, an incoming list
    whose system message comes second is returned as it is, which is not
    the merge. *)
Lemma inject_history_empty_history :
  stored_history "s" (store_of (session_of "s" [] 0) 3600 100) = [] /\
  fst (inject_history 1 "s" [msg "user" "hi"; msg "system" "S"]
         (store_of (session_of "s" [] 0) 3600 100))
    = [msg "user" "hi"; msg "system" "S"] /\
  fst (inject_history 1 "s" [msg "user" "hi"; msg "system" "S"]
         (store_of (session_of "s" [] 0) 3600 100))
    <> merge [] [msg "user" "hi"; msg "system" "S"].
Proof.
  assert (Hh : stored_history "s" (store_of (session_of "s" [] 0) 3600 100) = []).
  { unfold stored_history, store_of. simpl. by rewrite lookup_singleton_eq. }
  rewrite inject_history_fst, Hh. split; [done|]. split; [done|].
  vm_compute. discriminate.
Qed.

(** The merge scenario of the specification. *)
Example inject_history_scenario :
  fst (inject_history 1 "s1" [msg "system" "S"; msg "user" "C"]
         (store_of (session_of "s1" [msg "user" "A"; msg "assistant" "B"] 0) 3600 100))
  = [msg "system" "S"; msg "user" "A"; msg "assistant" "B"; msg "user" "C"].
Proof.
  rewrite inject_history_fst. unfold stored_history, store_of. simpl.
  by rewrite lookup_singleton_eq.
Qed.

(** C8. A read at idle age exactly TTL returns nothing and evicts the
    session; a read at a smaller idle age returns the session with
    [last_accessed] set to the time of the read. *)
Theorem get_ttl_boundary (t_idle t_touch : Q) (sid : string) (mgr : SessionManager)
    (s : Session) :
  _sessions mgr !! sid = Some s ->
  ((idle_seconds t_idle s == inject_Z (_ttl mgr))%Q ->
     fst (get t_idle t_touch sid mgr) = None /\
     _sessions (snd (get t_idle t_touch sid mgr)) !! sid = None) /\
  ((idle_seconds t_idle s < inject_Z (_ttl mgr))%Q ->
     fst (get t_idle t_touch sid mgr) = Some (touch t_touch s) /\
     last_accessed (touch t_touch s) = t_touch /\
     messages (touch t_touch s) = messages s /\
     _sessions (snd (get t_idle t_touch sid mgr)) !! sid = Some (touch t_touch s)).
Proof.
  intros Hs. unfold get. rewrite Hs. split.
  - intros Heq.
    assert (Hb : Qltb (idle_seconds t_idle s) (inject_Z (_ttl mgr)) = false).
    { apply Qltb_ge. rewrite Heq. apply Qle_refl. }
    rewrite Hb. simpl. split; [done|]. apply lookup_delete_eq.
  - intros Hlt. apply Qltb_lt in Hlt. rewrite Hlt. simpl.
    repeat split. apply lookup_insert_eq.
Qed.

Lemma get_ttl_boundary_witness :
  (fst (get 3700 3701 "s" (store_of (session_of "s" [msg "user" "A"] 100) 3600 100)) = None /\
   _sessions (snd (get 3700 3701 "s"
                     (store_of (session_of "s" [msg "user" "A"] 100) 3600 100))) !! "s" = None) /\
  fst (get (7399 / 2) 3701 "s" (store_of (session_of "s" [msg "user" "A"] 100) 3600 100))
    = Some (touch 3701 (session_of "s" [msg "user" "A"] 100)).
Proof.
  split.
  - apply (get_ttl_boundary 3700 3701 "s"
             (store_of (session_of "s" [msg "user" "A"] 100) 3600 100)
             (session_of "s" [msg "user" "A"] 100)).
    + apply lookup_singleton_eq.
    + reflexivity.
  - apply (get_ttl_boundary (7399 / 2) 3701 "s"
             (store_of (session_of "s" [msg "user" "A"] 100) 3600 100)
             (session_of "s" [msg "user" "A"] 100)).
    + apply lookup_singleton_eq.
    + reflexivity.
Defined.

Lemma get_or_create_existing (t_created t_accessed t_touch : Q) (sid key : string)
    (mgr : SessionManager) (s : Session) :
  _sessions mgr !! sid = Some s ->
  get_or_create t_created t_accessed t_touch sid key mgr =
    (touch t_touch s, set_sessions (<[sid := touch t_touch s]> (_sessions mgr)) mgr).
Proof. intros Hs. unfold get_or_create. by rewrite Hs. Qed.

Lemma session_step_state (t_created t_accessed t_touch t_hist : Q) (sid key : string)
    (I : list Message) (mgr : SessionManager) (s : Session) :
  _sessions mgr !! sid = Some s ->
  snd (session_step t_created t_accessed t_touch t_hist sid key I mgr) =
    set_sessions
      (<[sid := touch t_hist s]> (<[sid := touch t_touch s]> (_sessions mgr))) mgr.
Proof.
  intros Hs. unfold session_step. rewrite (get_or_create_existing _ _ _ _ _ _ _ Hs).
  rewrite inject_history_snd. unfold get_history. simpl.
  by rewrite lookup_insert_eq.
Qed.



End SessionFacts.

(** ** Rate limiter *)

Section RateLimitFacts.

Import RateLimit.

(** On a non-negative wait, [int] is the floor. *)
Lemma py_int_floor (q : Q) : (0 <= q)%Q -> py_int q = Qfloor q.
Proof.
  destruct q as [n d]. unfold Qle, py_int, Qfloor. simpl. intros Hn.
  apply Z.quot_div_nonneg; lia.
Qed.

Lemma counter_of_insert (k : string) (c : WindowCounter)
    (counters : gmap string WindowCounter) :
  counter_of k (<[k := c]> counters) = c.
Proof. unfold counter_of. by rewrite lookup_insert_eq. Qed.

Lemma check_request_reject (t1 t2 : Q) (k : string) (limit : Z)
    (counters : gmap string WindowCounter) :
  (limit <= Z.of_nat (length (window t1 k counters)))%Z ->
  check_request t1 t2 k limit counters =
    (Raise (rate_limit_exceeded (Z.of_nat (length (window t1 k counters))) limit
              (_estimate_retry_after t2 (snd (request_count t1 60 (counter_of k counters))))),
     <[k := snd (request_count t1 60 (counter_of k counters))]> counters).
Proof.
  intros Hfull. unfold check_request, window in *. simpl in *.
  by destruct (Z.leb_spec limit
    (Z.of_nat (length (List.filter (fun t => Qltb (t1 - 60) t)
                         (timestamps (counter_of k counters)))))); [|lia].
Qed.

Lemma check_request_admit (t1 t2 : Q) (k : string) (limit : Z)
    (counters : gmap string WindowCounter) :
  (Z.of_nat (length (window t1 k counters)) < limit)%Z ->
  check_request t1 t2 k limit counters =
    (Ok tt,
     <[k := add_request t2 (snd (request_count t1 60 (counter_of k counters)))]> counters).
Proof.
  intros Hroom. unfold check_request, window in *. simpl in *.
  by destruct (Z.leb_spec limit
    (Z.of_nat (length (List.filter (fun t => Qltb (t1 - 60) t)
                         (timestamps (counter_of k counters)))))); [lia|].
Qed.

Lemma estimate_window (t1 t2 : Q) (k : string) (counters : gmap string WindowCounter) :
  _estimate_retry_after t2 (snd (request_count t1 60 (counter_of k counters))) =
    match window t1 k counters with
    | [] => 1%Z
    | t :: ts => Z.max 1 (py_int (60 - (t2 - py_min t ts))%Q + 1)
    end.
Proof. reflexivity. Qed.

(** C3 (amended). When the pruned window holds at least [rpm_limit]
    requests, [check_request] raises a 429 with code rate_limit_exceeded
    whose Retry-After is [max(1, int(60 - (now - oldest)) + 1)], [int]
    truncating (the floor, not the ceiling, of a non-negative wait), and 1
    when the window is empty; otherwise it appends the current time to the
    pruned timestamp list. *)
Theorem check_request_outcome (t1 t2 : Q) (k : string) (limit : Z)
    (counters : gmap string WindowCounter) :
  ((limit <= Z.of_nat (length (window t1 k counters)))%Z ->
   exists (e : exn) (retry_after : Z),
     fst (check_request t1 t2 k limit counters) = Raise e /\
     status_of e = Some 429%Z /\
     error_code e = Some (VStr "rate_limit_exceeded") /\
     retry_after_header e = Some (pretty retry_after) /\
     (1 <= retry_after)%Z /\
     retry_after =
       match window t1 k counters with
       | [] => 1%Z
       | t :: ts => Z.max 1 (py_int (60 - (t2 - py_min t ts))%Q + 1)
       end /\
     (forall t ts, window t1 k counters = t :: ts ->
        (0 <= 60 - (t2 - py_min t ts))%Q ->
        retry_after = (Qfloor (60 - (t2 - py_min t ts))%Q + 1)%Z) /\
     timestamps (counter_of k (snd (check_request t1 t2 k limit counters)))
       = window t1 k counters) /\
  ((Z.of_nat (length (window t1 k counters)) < limit)%Z ->
   fst (check_request t1 t2 k limit counters) = Ok tt /\
   timestamps (counter_of k (snd (check_request t1 t2 k limit counters)))
     = window t1 k counters ++ [t2]).
Proof.
  split.
  - intros Hfull. rewrite (check_request_reject _ _ _ _ _ Hfull). cbn [fst snd].
    eexists _, (_estimate_retry_after t2 (snd (request_count t1 60 (counter_of k counters)))).
    split; [reflexivity|].
    split; [reflexivity|]. split; [reflexivity|]. split; [reflexivity|].
    rewrite counter_of_insert, estimate_window.
    change (timestamps (snd (request_count t1 60 (counter_of k counters))))
      with (window t1 k counters).
    destruct (window t1 k counters) as [|t ts] eqn:Hw.
    + split; [lia|]. split; [done|]. split; [|done].
      intros t ts Habs. discriminate.
    + split; [lia|]. split; [done|]. split; [|done].
      intros t' ts' [= <- <-] Hwait.
      rewrite (py_int_floor _ Hwait).
      assert (0 <= Qfloor (60 - (t2 - py_min t ts))%Q)%Z.
      { change 0%Z with (Qfloor 0). by apply Qfloor_resp_le. }
      lia.
  - intros Hroom. rewrite (check_request_admit _ _ _ _ _ Hroom). cbn [fst snd].
    split; [done|]. by rewrite counter_of_insert.
Qed.

Lemma window_one_request : window (59 / 2) "k" one_request = [0%Q].
Proof.
  unfold window, counter_of, one_request. rewrite lookup_singleton_eq. reflexivity.
Qed.

Lemma check_request_outcome_witness :
  (exists (e : exn) (retry_after : Z),
     fst (check_request (59 / 2) (59 / 2) "k" 1 one_request) = Raise e /\
     status_of e = Some 429%Z /\
     retry_after_header e = Some (pretty retry_after) /\
     retry_after = 31%Z) /\
  fst (check_request (59 / 2) (59 / 2) "k" 5 one_request) = Ok tt.
Proof.
  split.
  - destruct (proj1 (check_request_outcome (59 / 2) (59 / 2) "k" 1 one_request))
      as (e & ra & He & Hstatus & _ & Hheader & _ & Hra & _).
    + rewrite window_one_request. simpl. lia.
    + exists e, ra. rewrite window_one_request in Hra. repeat split; assumption.
  - apply (proj2 (check_request_outcome (59 / 2) (59 / 2) "k" 5 one_request)).
    rewrite window_one_request. simpl. lia.
Defined.

(** C3 as stated fails: one request at time 0, a limit of 1 and a second
    request at time 29.5 give a wait of 30.5 seconds and a Retry-After of
    31, where [ceil(30.5) + 1] is 32. *)
Lemma check_request_retry_after_truncates :
  fst (check_request (59 / 2) (59 / 2) "k" 1 one_request)
    = Raise (rate_limit_exceeded 1 1 31) /\
  retry_after_header (rate_limit_exceeded 1 1 31) = Some "31" /\
  claimed_retry_after (59 / 2) 0 = 32%Z /\
  retry_after_header (rate_limit_exceeded 1 1 31)
    <> Some (pretty (claimed_retry_after (59 / 2) 0)).
Proof.
  split; [|split; [|split]].
  - rewrite check_request_reject by (rewrite window_one_request; simpl; lia).
    cbn [fst]. rewrite window_one_request, estimate_window, window_one_request.
    reflexivity.
  - reflexivity.
  - reflexivity.
  - vm_compute. discriminate.
Qed.

End RateLimitFacts.

(** ** Model registry *)

Section RouterFacts.

Import Router.

Lemma dict_set_fresh {V : Type} (k : string) (v : V) (d : pydict V) :
  k ∉ map fst d -> dict_set k v d = d ++ [(k, v)].
Proof.
  induction d as [|[k' v'] d IH]; simpl; intros Hk; [done|].
  apply not_elem_of_cons in Hk as [Hne Hk].
  destruct (String.eqb_spec k k'); [done|]. by rewrite IH.
Qed.

Lemma load_backends_fresh (entries : list (string * dict)) (acc : pydict ModelBackend) :
  NoDup (map fst entries) ->
  (forall k, k ∈ map fst entries -> k ∉ map fst acc) ->
  load_backends (map entry_value entries) acc = (Ok tt, acc ++ map backend_of entries).
Proof.
  revert acc. induction entries as [|[n mc] entries IH]; intros acc Hnodup Hfresh.
  - simpl. by rewrite app_nil_r.
  - simpl in *. apply NoDup_cons in Hnodup as [Hn Hnodup].
    rewrite dict_set_fresh by (apply Hfresh; left).
    rewrite IH; [by rewrite <- app_assoc | done |].
    intros k Hk. rewrite map_app. simpl. rewrite elem_of_app, list_elem_of_singleton.
    intros [Hacc | ->]; [|done].
    by apply (Hfresh k); [right|].
Qed.

(** C4 (amended). When the configuration file does not exist, [reload]
    returns normally and leaves the backend map as it was; when reading or
    parsing raises, the map is also left as it was, but the exception
    reaches the caller; when the parsed catalog maps distinct names to
    mappings, the backend map becomes exactly the parsed one. *)
Theorem reload_outcome (backends : pydict ModelBackend) :
  reload Missing backends = (Ok tt, backends) /\
  (forall e : exn, reload (Unreadable e) backends = (Raise e, backends)) /\
  (forall (c : dict) (entries : list (string * dict)),
     dict_get_default "models" (VDict []) c = VDict (map entry_value entries) ->
     NoDup (map fst entries) ->
     reload (Parsed (VDict c)) backends = (Ok tt, map backend_of entries)).
Proof.
  split; [done|]. split; [done|].
  intros c entries Hmodels Hnodup. unfold reload. simpl. rewrite Hmodels. simpl.
  rewrite load_backends_fresh; [done | done |].
  intros k _. simpl. apply not_elem_of_nil.
Qed.

Lemma reload_outcome_witness :
  reload (Parsed one_model_config) old_backends = (Ok tt, map backend_of one_model).
Proof.
  apply (proj2 (proj2 (reload_outcome old_backends))
           [("models", VDict (map entry_value one_model))] one_model).
  - reflexivity.
  - simpl. apply NoDup_singleton.
Defined.

(** C4 as stated fails: a parse error is not swallowed, [reload] raises it. *)
Lemma reload_parse_error_raised :
  reload (Unreadable (ExternalError "yaml.YAMLError")) old_backends
    = (Raise (ExternalError "yaml.YAMLError"), old_backends) /\
  fst (reload (Unreadable (ExternalError "yaml.YAMLError")) old_backends) <> Ok tt.
Proof. split; [reflexivity | discriminate]. Qed.

(** An empty configuration file parses to [None]: the map is cleared
    before the lookup raises. *)
Example reload_empty_file :
  reload (Parsed VNone) old_backends = (Raise AttributeError, []).
Proof. reflexivity. Qed.

End RouterFacts.

(** ** Tiering resolver *)

Section TieringFacts.

Import Tiering.

Variable re_search : string -> string -> bool.

Lemma str_truthy_true (s : string) : str_truthy s = true <-> s <> "".
Proof.
  unfold str_truthy. destruct (String.eqb_spec s ""); simpl; split; done.
Qed.

Lemma str_truthy_false (s : string) : str_truthy s = false <-> s = "".
Proof. unfold str_truthy. by destruct (String.eqb_spec s ""). Qed.

(** [_resolve_tier] is the table of recognised hints. *)
Lemma resolve_tier_table (cfg : TieringConfig) (h : string) :
  _resolve_tier cfg h = hint_model cfg (Some h).
Proof.
  unfold _resolve_tier, hint_model, recognized_hints, dict_get.
  repeat (match goal with
          | |- context [String.eqb h ?lit] => destruct (String.eqb_spec h lit); try subst h
          end; try reflexivity; try discriminate).
Qed.







End TieringFacts.

Section TieringExamples.

Import Tiering.


(** The rule of [catch_all] routes a non-empty request to the reasoning model. *)
Example resolve_model_rule :
  resolve_model literal_search catch_all [user_msg "plan a trip"] None None = Ok "big".
Proof. reflexivity. Qed.


End TieringExamples.

(** ** Stream relay *)

Section StreamFacts.

Import Metering Stream.

Variable json_loads : string -> option value.
Variable json_dumps : value -> string.










End StreamFacts.

Section StreamExamples.

Import Metering Stream.




(** The frames of the shrinking stream are relayed as they are. *)
Example stream_frames :
  fst (fst (event_generator table_loads opaque_dumps
              (Responded 200 "" shrinking_stream false)
              "gk-dev" "m1" None 0 1 1 1 no_stores))
  = [("data: " +:+ usage_chunk 10) +:+ nl +:+ nl;
     ("data: " +:+ usage_chunk 5) +:+ nl +:+ nl;
     "data: [DONE]" +:+ nl +:+ nl].
Proof. vm_compute. reflexivity. Qed.

End StreamExamples.

(** ** Usage ledger *)

Section MeteringFacts.

Import Metering.

(** C7 (amended). Over an empty slice, the counts and the sums and
    averages wrapped in COALESCE are zero: [get_usage_by_key],
    [get_usage_by_model] and [get_global_stats] return zeros only, and
    [get_usage_by_session] returns zeros for its five aggregate fields,
    with [None] for [first_request] and [last_request]. *)
Theorem empty_slice_aggregates (table : list Row) :
  (forall (k : string) (since : Q),
     key_slice k since table = [] -> all_zero (get_usage_by_key table k since)) /\
  (forall (m : string) (since : Q),
     model_slice m since table = [] -> all_zero (get_usage_by_model table m since)) /\
  (forall since : Q,
     since_slice since table = [] -> all_zero (get_global_stats table since)) /\
  (forall sid : string,
     session_slice sid table = [] ->
     get_usage_by_session table sid =
       [("request_count", VInt 0); ("total_input", VInt 0); ("total_output", VInt 0);
        ("total_tokens", VInt 0); ("avg_latency_ms", VInt 0);
        ("first_request", VNone); ("last_request", VNone)]).
Proof.
  split; [|split; [|split]].
  - intros k since Hempty. unfold get_usage_by_key. rewrite Hempty.
    repeat constructor.
  - intros m since Hempty. unfold get_usage_by_model. rewrite Hempty.
    repeat constructor.
  - intros since Hempty. unfold get_global_stats. rewrite Hempty.
    repeat constructor.
  - intros sid Hempty. unfold get_usage_by_session. by rewrite Hempty.
Qed.

Lemma empty_slice_aggregates_witness :
  all_zero (get_usage_by_key one_call "gk-other" 0) /\
  dict_get "first_request" (get_usage_by_session one_call "s1") = Some VNone.
Proof.
  destruct (empty_slice_aggregates one_call) as (Hkey & _ & _ & Hsession).
  split.
  - apply Hkey. reflexivity.
  - rewrite Hsession; reflexivity.
Defined.

(** C7 as stated fails: for a session without usage rows, [first_request]
    and [last_request] are [None], not zero. *)
Lemma session_usage_null_timestamps :
  session_slice "s1" one_call = [] /\
  dict_get "first_request" (get_usage_by_session one_call "s1") = Some VNone /\
  dict_get "last_request" (get_usage_by_session one_call "s1") = Some VNone /\
  ~ all_zero (get_usage_by_session one_call "s1").
Proof.
  split; [reflexivity|]. split; [reflexivity|]. split; [reflexivity|].
  intros Hzero. unfold all_zero in Hzero. rewrite Forall_forall in Hzero.
  specialize (Hzero ("first_request", VNone)). simpl in Hzero.
  assert (Habs : VNone = VInt 0); [|discriminate].
  apply Hzero. vm_compute. repeat (try (left; reflexivity); right).
Qed.

End MeteringFacts.

(** ** Credential store *)

Section AuthFacts.

Import Auth.


Lemma string_of_list_ascii_app (a b : list ascii) :
  string_of_list_ascii (a ++ b) = string_of_list_ascii a +:+ string_of_list_ascii b.
Proof. induction a as [|c a IH]; simpl; [done | by rewrite IH]. Qed.








End AuthFacts.

(** ** Session store: the remaining operations *)

Section SessionExtras.

Import Sessions.

Lemma lookup_fold_delete (ids : list string) (m : gmap string Session) (k : string) :
  fold_left (fun m sid => base.delete sid m) ids m !! k =
    if decide (k ∈ ids) then None else m !! k.
Proof.
  revert m. induction ids as [|i ids IH]; intros m; simpl.
  - destruct (decide (k ∈ [])) as [Hin|_]; [by apply elem_of_nil in Hin | done].
  - rewrite IH.
    destruct (decide (k ∈ ids)) as [Hin|Hnin];
      destruct (decide (k ∈ i :: ids)) as [Hin'|Hnin'].
    + done.
    + destruct Hnin'. by right.
    + apply elem_of_cons in Hin' as [->|?]; [apply lookup_delete_eq | done].
    + apply lookup_delete_ne. intros <-. apply Hnin'. left.
Qed.

Lemma size_fold_delete (ids : list string) (m : gmap string Session) :
  NoDup ids ->
  (forall i, i ∈ ids -> is_Some (m !! i)) ->
  size (fold_left (fun m sid => base.delete sid m) ids m) + length ids = size m.
Proof.
  revert m. induction ids as [|i ids IH]; intros m Hnodup Hin; simpl; [lia|].
  apply NoDup_cons in Hnodup as [Hi Hnodup].
  assert (Hrest : forall j, j ∈ ids -> is_Some (base.delete i m !! j)).
  { intros j Hj. rewrite lookup_delete_ne; [apply Hin; by right|].
    intros <-. done. }
  pose proof (IH (base.delete i m) Hnodup Hrest) as Hsize.
  rewrite map_size_delete_Some in Hsize by (apply Hin; left).
  assert (size m <> 0); [|lia].
  destruct (Hin i) as [x Hx]; [left|].
  intros Hz. apply map_size_empty_inv in Hz. subst m. by rewrite lookup_empty in Hx.
Qed.

Lemma elem_of_expired_ids (clock : string -> Q) (ttl : Z) (m : gmap string Session)
    (k : string) :
  k ∈ map fst (List.filter (fun kv => is_expired ttl (clock (fst kv)) (snd kv))
                 (map_to_list m))
  <-> exists s, m !! k = Some s /\ is_expired ttl (clock k) s = true.
Proof.
  rewrite list_elem_of_fmap. split.
  - intros ([k' s] & -> & Hin). apply list_elem_of_In, filter_In in Hin as [Hin Hexp].
    apply list_elem_of_In, elem_of_map_to_list in Hin. by exists s.
  - intros (s & Hs & Hexp). exists (k, s). split; [done|].
    apply list_elem_of_In, filter_In. split; [|done].
    by apply list_elem_of_In, elem_of_map_to_list.
Qed.

(** X1. [delete] reports whether the session was there, forgets it and leaves
    every other session alone; a later merge for the deleted id forwards
    the request as it is. *)
Theorem delete_forgets (now : Q) (sid : string) (I : list Message) (mgr : SessionManager) :
  (fst (delete sid mgr) = true <-> is_Some (_sessions mgr !! sid)) /\
  _sessions (snd (delete sid mgr)) !! sid = None /\
  (forall sid', sid' <> sid ->
     _sessions (snd (delete sid mgr)) !! sid' = _sessions mgr !! sid') /\
  fst (inject_history now sid I (snd (delete sid mgr))) = I.
Proof.
  assert (Hgone : _sessions (snd (delete sid mgr)) !! sid = None).
  { unfold delete. destruct (_sessions mgr !! sid) eqn:Hs; simpl; [|done].
    apply lookup_delete_eq. }
  split; [|split; [done|split]].
  - unfold delete. destruct (_sessions mgr !! sid) as [s|]; simpl.
    + split; [by eexists | done].
    + split; [done | by intros [? ?]].
  - intros sid' Hne. unfold delete. destruct (_sessions mgr !! sid); simpl; [|done].
    by apply lookup_delete_ne.
  - rewrite inject_history_fst. unfold stored_history. by rewrite Hgone.
Qed.

Lemma cleanup_expired_lookup (clock : string -> Q) (mgr : SessionManager) (sid : string) :
  _sessions (snd (cleanup_expired clock mgr)) !! sid =
    match _sessions mgr !! sid with
    | Some s => if is_expired (_ttl mgr) (clock sid) s then None else Some s
    | None => None
    end.
Proof.
  unfold cleanup_expired. cbn [fst snd _sessions set_sessions].
  rewrite lookup_fold_delete.
  destruct (decide _) as [Hin|Hnin].
  - apply elem_of_expired_ids in Hin as (s & -> & ->). done.
  - destruct (_sessions mgr !! sid) as [s|] eqn:Hs; [|done].
    destruct (is_expired (_ttl mgr) (clock sid) s) eqn:Hexp; [|done].
    destruct Hnin. apply elem_of_expired_ids. by exists s.
Qed.

Lemma cleanup_expired_size (clock : string -> Q) (mgr : SessionManager) :
  (fst (cleanup_expired clock mgr)
     + Z.of_nat (size (_sessions (snd (cleanup_expired clock mgr))))
   = Z.of_nat (size (_sessions mgr)))%Z.
Proof.
  unfold cleanup_expired. cbn [fst snd _sessions set_sessions].
  rewrite <- (size_fold_delete
                (map fst (List.filter
                   (fun kv => is_expired (_ttl mgr) (clock (fst kv)) (snd kv))
                   (map_to_list (_sessions mgr)))) (_sessions mgr)); [lia | |].
  - eapply sublist_NoDup; [apply (NoDup_fst_map_to_list (_sessions mgr))|].
    apply (fmap_sublist fst), filter_sublist.
  - intros i (s & Hs & _)%elem_of_expired_ids. by eexists.
Qed.

(** X2. [cleanup_expired] removes exactly the sessions whose idle age has
    reached TTL, keeps the others as they are, and returns the number of
    sessions it removed. *)
Theorem cleanup_expired_exact (clock : string -> Q) (mgr : SessionManager) :
  (forall sid,
     _sessions (snd (cleanup_expired clock mgr)) !! sid =
       match _sessions mgr !! sid with
       | Some s => if is_expired (_ttl mgr) (clock sid) s then None else Some s
       | None => None
       end) /\
  (fst (cleanup_expired clock mgr)
     + Z.of_nat (size (_sessions (snd (cleanup_expired clock mgr))))
   = Z.of_nat (size (_sessions mgr)))%Z.
Proof.
  split; [apply cleanup_expired_lookup | apply cleanup_expired_size].
Qed.

(** X3. [active_count] is the number of sessions a sweep with the same clock
    readings would keep: expired sessions are not counted, although
    counting removes none of them. *)
Theorem active_count_after_cleanup (clock : string -> Q) (mgr : SessionManager) :
  active_count clock mgr
    = Z.of_nat (size (_sessions (snd (cleanup_expired clock mgr)))).
Proof.
  pose proof (cleanup_expired_size clock mgr) as Hsize.
  unfold active_count.
  pose proof (filter_split_length
                (fun kv : string * Session =>
                   is_expired (_ttl mgr) (clock (fst kv)) (snd kv))
                (map_to_list (_sessions mgr))) as Hsplit.
  rewrite length_map_to_list in Hsplit.
  unfold cleanup_expired in Hsize at 1. cbn [fst] in Hsize.
  rewrite length_map in Hsize.
  change (fun kv : string * Session =>
            negb (is_expired (_ttl mgr) (clock (fst kv)) (snd kv)))
    with (fun kv : string * Session =>
            Qltb (idle_seconds (clock (fst kv)) (snd kv)) (inject_Z (_ttl mgr))) in Hsplit.
  lia.
Qed.

End SessionExtras.

Section SessionAppend.

Import Sessions.

(** X4. The first request that names a session id creates an empty session
    owned by the caller's key and forwards the body's messages as they are. *)
Theorem session_step_new (t_created t_accessed t_touch t_hist : Q) (sid key : string)
    (I : list Message) (mgr : SessionManager) :
  _sessions mgr !! sid = None ->
  fst (session_step t_created t_accessed t_touch t_hist sid key I mgr) = I /\
  _sessions (snd (session_step t_created t_accessed t_touch t_hist sid key I mgr)) !! sid
    = Some (mkSession sid key [] t_created t_hist []).
Proof.
  intros Hnew. unfold session_step, get_or_create. rewrite Hnew.
  rewrite inject_history_fst, inject_history_snd.
  unfold stored_history, get_history. cbn [_sessions set_sessions].
  rewrite lookup_insert_eq. cbn. by rewrite lookup_insert_eq.
Qed.

Lemma session_step_new_witness :
  fst (session_step 1 1 1 2 "s9" "gk-a" [msg "user" "hi"]
         (store_of (session_of "s1" [msg "user" "A"] 0) 3600 100))
    = [msg "user" "hi"].
Proof.
  apply (session_step_new 1 1 1 2 "s9" "gk-a" [msg "user" "hi"]
           (store_of (session_of "s1" [msg "user" "A"] 0) 3600 100)).
  apply lookup_singleton_ne. discriminate.
Defined.

(** X5. A session belongs to the key that created it, but [get_or_create]
    neither checks nor changes the owner: a request under another key is
    given the same session, still owned by the first key. *)
Theorem get_or_create_keeps_owner (t_created t_accessed t_touch : Q) (sid other : string)
    (mgr : SessionManager) (s : Session) :
  _sessions mgr !! sid = Some s ->
  api_key (fst (get_or_create t_created t_accessed t_touch sid other mgr)) = api_key s /\
  messages (fst (get_or_create t_created t_accessed t_touch sid other mgr)) = messages s /\
  _sessions (snd (get_or_create t_created t_accessed t_touch sid other mgr)) !! sid
    = Some (touch t_touch s).
Proof.
  intros Hs. rewrite (get_or_create_existing _ _ _ _ _ _ _ Hs). cbn.
  repeat split. apply lookup_insert_eq.
Qed.

Lemma get_or_create_keeps_owner_witness :
  api_key (fst (get_or_create 5 5 5 "s1" "gk-other"
                  (store_of (session_of "s1" [msg "user" "A"] 0) 3600 100)))
    = "gk-dev".
Proof.
  apply (get_or_create_keeps_owner 5 5 5 "s1" "gk-other"
           (store_of (session_of "s1" [msg "user" "A"] 0) 3600 100)
           (session_of "s1" [msg "user" "A"] 0)).
  apply lookup_singleton_eq.
Defined.

(** [append_messages] touches one session only: an unknown id changes
    nothing at all, and every other session keeps its state. *)
Theorem append_messages_frame (now : Q) (sid : string) (msgs : list Message)
    (mgr : SessionManager) :
  (_sessions mgr !! sid = None -> append_messages now sid msgs mgr = mgr) /\
  (forall sid', sid' <> sid ->
     _sessions (append_messages now sid msgs mgr) !! sid' = _sessions mgr !! sid') /\
  _ttl (append_messages now sid msgs mgr) = _ttl mgr /\
  _max_history (append_messages now sid msgs mgr) = _max_history mgr.
Proof.
  unfold append_messages. destruct (_sessions mgr !! sid) as [s|] eqn:Hs.
  - split; [done|]. split; [|done]. intros sid' Hne. cbn.
    by apply lookup_insert_ne.
  - by repeat split.
Qed.

Lemma append_messages_frame_witness :
  append_messages 1 "s9" [msg "user" "hi"]
    (store_of (session_of "s1" [msg "user" "A"] 0) 3600 100)
  = store_of (session_of "s1" [msg "user" "A"] 0) 3600 100.
Proof.
  apply (append_messages_frame 1 "s9" [msg "user" "hi"]
           (store_of (session_of "s1" [msg "user" "A"] 0) 3600 100)).
  apply lookup_singleton_ne. discriminate.
Defined.

(** X6. While the history fits in MAX_HISTORY, an append stores the old
    messages followed by the new ones, in order, and a later
    [get_history] returns exactly that list. *)
Theorem append_then_get_history (now later : Q) (sid : string) (msgs : list Message)
    (mgr : SessionManager) (s : Session) :
  _sessions mgr !! sid = Some s ->
  (Z.of_nat (length (messages s ++ msgs)) <= _max_history mgr)%Z ->
  fst (get_history later sid (append_messages now sid msgs mgr)) = messages s ++ msgs /\
  (exists s', _sessions (append_messages now sid msgs mgr) !! sid = Some s' /\
              last_accessed s' = now /\ api_key s' = api_key s /\
              created_at s' = created_at s).
Proof.
  intros Hs Hfit. rewrite get_history_fst. unfold stored_history.
  rewrite (append_messages_lookup _ _ _ _ _ Hs), trim_short by done.
  split; [done|]. by eexists.
Qed.

Lemma append_then_get_history_witness :
  fst (get_history 8 "s1"
         (append_messages 7 "s1" [msg "user" "B"]
            (store_of (session_of "s1" [msg "user" "A"] 0) 3600 100)))
    = [msg "user" "A"; msg "user" "B"].
Proof.
  apply (append_then_get_history 7 8 "s1" [msg "user" "B"]
           (store_of (session_of "s1" [msg "user" "A"] 0) 3600 100)
           (session_of "s1" [msg "user" "A"] 0)).
  - apply lookup_singleton_eq.
  - vm_compute. discriminate.
Defined.

End SessionAppend.

Section SessionTrim.

Import Sessions.

Lemma filter_all {A : Type} (f : A -> bool) (l : list A) :
  Forall (fun x => f x = true) l -> List.filter f l = l.
Proof.
  induction 1 as [|x l Hx _ IH]; simpl; [done|]. by rewrite Hx, IH.
Qed.

Lemma filter_none {A : Type} (f : A -> bool) (l : list A) :
  Forall (fun x => f x = false) l -> List.filter f l = [].
Proof.
  induction 1 as [|x l Hx _ IH]; simpl; [done|]. by rewrite Hx, IH.
Qed.

Lemma Forall_filter_true {A : Type} (f : A -> bool) (l : list A) :
  Forall (fun x => f x = true) (List.filter f l).
Proof.
  induction l as [|x l IH]; simpl; [constructor|].
  destruct (f x) eqn:Hx; [by constructor | done].
Qed.

Lemma system_not_other (l : list Message) :
  Forall (fun m => not_system m = false) (List.filter is_system l).
Proof.
  eapply Forall_impl; [apply Forall_filter_true|].
  intros m Hm. unfold not_system. simpl in Hm. by rewrite Hm.
Qed.

Lemma other_not_system (l : list Message) :
  Forall (fun m => is_system m = false) (List.filter not_system l).
Proof.
  eapply Forall_impl; [apply Forall_filter_true|].
  intros m Hm. unfold not_system in Hm. simpl in Hm. by apply negb_true_iff in Hm.
Qed.

(** The last [k] elements of a list lie in any suffix of at least [k] elements. *)
Lemma last_n_app {A : Type} (k : Z) (l1 l2 : list A) :
  (Z.to_nat k <= length l2)%nat -> last_n k (l1 ++ l2) = last_n k l2.
Proof.
  intros Hk. unfold last_n. rewrite length_app, drop_app_ge by lia. f_equal. lia.
Qed.

Lemma trim_length (max_history : Z) (ms : list Message) :
  (max_history < Z.of_nat (length ms))%Z ->
  (Z.of_nat (length (List.filter is_system ms)) < max_history)%Z ->
  Z.of_nat (length (trim max_history ms)) = max_history.
Proof.
  intros Hlong Hsys. rewrite trim_long by done. unfold last_n.
  rewrite length_app, length_drop.
  pose proof (filter_split_length is_system ms) as Hsplit.
  change (fun x => negb (is_system x)) with not_system in Hsplit. lia.
Qed.

Lemma trim_system (max_history : Z) (ms : list Message) :
  (Z.of_nat (length (List.filter is_system ms)) < max_history)%Z ->
  List.filter is_system (trim max_history ms) = List.filter is_system ms.
Proof.
  intros Hsys.
  destruct (Z.le_gt_cases (Z.of_nat (length ms)) max_history); [by rewrite trim_short|].
  rewrite trim_long by lia. rewrite List.filter_app.
  rewrite (filter_all is_system (List.filter is_system ms)) by apply Forall_filter_true.
  rewrite (filter_none is_system (last_n _ _)); [by rewrite app_nil_r|].
  unfold last_n. apply Forall_drop, other_not_system.
Qed.

Lemma trim_other (max_history : Z) (ms : list Message) :
  (max_history < Z.of_nat (length ms))%Z ->
  (Z.of_nat (length (List.filter is_system ms)) < max_history)%Z ->
  List.filter not_system (trim max_history ms) =
    last_n (max_history - Z.of_nat (length (List.filter is_system ms)))
           (List.filter not_system ms).
Proof.
  intros Hlong Hsys. rewrite trim_long by done. rewrite List.filter_app.
  rewrite (filter_none not_system (List.filter is_system ms)) by apply system_not_other.
  simpl. apply filter_all. unfold last_n. apply Forall_drop, Forall_filter_true.
Qed.

(** Trimming after each of two appends stores what trimming after the
    joint append stores. *)
Lemma trim_trim_app (max_history : Z) (x b : list Message) :
  (Z.of_nat (length (List.filter is_system (x ++ b))) < max_history)%Z ->
  trim max_history (trim max_history x ++ b) = trim max_history (x ++ b).
Proof.
  intros Hsys.
  destruct (Z.le_gt_cases (Z.of_nat (length x)) max_history) as [Hfit|Hlong];
    [by rewrite (trim_short _ x)|].
  assert (Hsysx : (Z.of_nat (length (List.filter is_system x)) < max_history)%Z).
  { rewrite List.filter_app, length_app in Hsys. lia. }
  destruct b as [|m b].
  { rewrite !app_nil_r. apply trim_short. rewrite trim_length by lia. lia. }
  assert (Hlen : Z.of_nat (length (trim max_history x)) = max_history)
    by (apply trim_length; lia).
  assert (Hsys' : List.filter is_system (trim max_history x ++ m :: b)
                  = List.filter is_system (x ++ m :: b)).
  { by rewrite !List.filter_app, trim_system. }
  rewrite (trim_long _ (trim max_history x ++ m :: b));
    [| rewrite length_app; simpl; lia | by rewrite Hsys'].
  rewrite (trim_long _ (x ++ m :: b)); [| rewrite length_app; simpl; lia | done].
  rewrite Hsys'. f_equal.
  rewrite !(List.filter_app not_system), trim_other by lia.
  set (X := List.filter not_system x). set (Y := List.filter not_system (m :: b)).
  set (k1 := (max_history - Z.of_nat (length (List.filter is_system x)))%Z).
  set (k2 := (max_history - Z.of_nat (length (List.filter is_system (x ++ m :: b))))%Z).
  assert (Hk : (k2 <= k1)%Z).
  { unfold k1, k2. rewrite List.filter_app, length_app. lia. }
  assert (HX : (Z.to_nat k1 <= length X)%nat).
  { pose proof (filter_split_length is_system x) as Hsplit.
    change (fun x => negb (is_system x)) with not_system in Hsplit.
    unfold k1, X. lia. }
  rewrite <- (take_drop (length X - Z.to_nat k1) X) at 2.
  rewrite <- app_assoc. unfold last_n at 2. fold (@last_n Message k1 X).
  symmetry. apply last_n_app.
  rewrite length_app. unfold last_n. rewrite length_drop. lia.
Qed.

(** X7. Appending in two batches stores the same history as appending the
    two batches at once, as long as the system messages of the session
    number fewer than MAX_HISTORY. *)
Theorem append_messages_batches (t1 t2 t : Q) (sid : string) (a b : list Message)
    (mgr : SessionManager) (s : Session) :
  _sessions mgr !! sid = Some s ->
  (Z.of_nat (length (List.filter is_system (messages s ++ a ++ b))) < _max_history mgr)%Z ->
  stored_history sid (append_messages t2 sid b (append_messages t1 sid a mgr))
    = stored_history sid (append_messages t sid (a ++ b) mgr).
Proof.
  intros Hs Hsys. unfold stored_history.
  rewrite (append_messages_lookup t sid (a ++ b) mgr s Hs).
  rewrite (append_messages_lookup t2 sid b (append_messages t1 sid a mgr) _
             (append_messages_lookup t1 sid a mgr s Hs)).
  cbn [messages].
  assert (Hmax : _max_history (append_messages t1 sid a mgr) = _max_history mgr).
  { unfold append_messages. by rewrite Hs. }
  rewrite Hmax, app_assoc. apply trim_trim_app. by rewrite <- app_assoc.
Qed.

Lemma append_messages_batches_witness :
  stored_history "s1"
    (append_messages 2 "s1" [msg "assistant" "a3"]
       (append_messages 1 "s1" [msg "user" "u3"]
          (store_of (session_of "s1" five_messages 0) 3600 5)))
  = stored_history "s1"
      (append_messages 3 "s1" [msg "user" "u3"; msg "assistant" "a3"]
         (store_of (session_of "s1" five_messages 0) 3600 5)).
Proof.
  apply (append_messages_batches 1 2 3 "s1" [msg "user" "u3"] [msg "assistant" "a3"]
           (store_of (session_of "s1" five_messages 0) 3600 5)
           (session_of "s1" five_messages 0)).
  - apply lookup_singleton_eq.
  - vm_compute. reflexivity.
Defined.

(** X8. At the truncation boundary: a history of exactly MAX_HISTORY messages
    that receives one more message keeps its system messages, now in
    front, and loses exactly its oldest non-system message. *)
Theorem append_messages_boundary (now : Q) (sid : string) (m : Message)
    (mgr : SessionManager) (s : Session) :
  _sessions mgr !! sid = Some s ->
  Z.of_nat (length (messages s)) = _max_history mgr ->
  (Z.of_nat (length (List.filter is_system (messages s ++ [m]))) < _max_history mgr)%Z ->
  stored_history sid (append_messages now sid [m] mgr) =
    List.filter is_system (messages s ++ [m]) ++
    drop 1 (List.filter not_system (messages s ++ [m])).
Proof.
  intros Hs Hfull Hsys. unfold stored_history.
  rewrite (append_messages_lookup _ _ _ _ _ Hs). cbn [messages].
  rewrite trim_long; [| rewrite length_app; simpl; lia | done].
  f_equal. unfold last_n. f_equal.
  pose proof (filter_split_length is_system (messages s ++ [m])) as Hsplit.
  change (fun x => negb (is_system x)) with not_system in Hsplit.
  rewrite (length_app (messages s)) in Hsplit. simpl in Hsplit. lia.
Qed.

Lemma append_messages_boundary_witness :
  stored_history "s1"
    (append_messages 7 "s1" [msg "user" "u3"]
       (store_of (session_of "s1" five_messages 3) 3600 5))
  = List.filter is_system (five_messages ++ [msg "user" "u3"]) ++
    drop 1 (List.filter not_system (five_messages ++ [msg "user" "u3"])).
Proof.
  apply (append_messages_boundary 7 "s1" (msg "user" "u3")
           (store_of (session_of "s1" five_messages 3) 3600 5)
           (session_of "s1" five_messages 3)).
  - apply lookup_singleton_eq.
  - reflexivity.
  - vm_compute. reflexivity.
Defined.

End SessionTrim.

(** ** Rate limiter: windows over time *)

Section RateLimitExtras.

Import RateLimit.

Lemma Qltb_false_le (x y : Q) : (y <= x)%Q -> Qltb x y = false.
Proof. apply Qltb_ge. Qed.

Lemma window_eq (t1 : Q) (k : string) (counters : gmap string WindowCounter) :
  window t1 k counters
    = List.filter (fun t => Qltb (t1 - 60) t) (timestamps (counter_of k counters)).
Proof. reflexivity. Qed.

Lemma check_request_timestamps (t1 t2 : Q) (k : string) (limit : Z)
    (counters : gmap string WindowCounter) :
  timestamps (counter_of k (snd (check_request t1 t2 k limit counters))) =
    if (limit <=? Z.of_nat (length (window t1 k counters)))%Z
    then window t1 k counters
    else window t1 k counters ++ [t2].
Proof.
  destruct (Z.leb_spec limit (Z.of_nat (length (window t1 k counters)))) as [Hfull|Hroom].
  - rewrite (check_request_reject _ _ _ _ _ Hfull). cbn [snd].
    by rewrite counter_of_insert.
  - rewrite (check_request_admit _ _ _ _ _ Hroom). cbn [snd].
    by rewrite counter_of_insert.
Qed.

(** [x < int(x) + 1] for every [x]: truncation loses less than one. *)
Lemma py_int_succ_gt (q : Q) : (q < inject_Z (py_int q + 1))%Q.
Proof.
  destruct q as [n d]. unfold Qlt, py_int, inject_Z. simpl.
  pose proof (Z.quot_rem' n (Z.pos d)) as Hdiv.
  assert (Hrem : (Z.rem n (Z.pos d) < Z.pos d)%Z).
  { destruct (Z.le_gt_cases 0 n) as [Hn|Hn].
    - apply Z.rem_bound_pos; lia.
    - pose proof (Z.rem_bound_pos_neg n (Z.pos d)). lia. }
  nia.
Qed.

Lemma py_min_in (x : Q) (l : list Q) : py_min x l ∈ x :: l.
Proof.
  unfold py_min. revert x. induction l as [|y l IH]; intros x; simpl; [left|].
  destruct (Qltb y x).
  - right. apply IH.
  - specialize (IH x). apply elem_of_cons in IH as [->|Hin]; [left | by right; right].
Qed.

Lemma filter_drops_one {A : Type} (f : A -> bool) (l : list A) (x : A) :
  x ∈ l -> f x = false -> length (List.filter f l) < length l.
Proof.
  induction 1 as [x l|x y l _ IH]; intros Hx; simpl.
  - rewrite Hx. pose proof (filter_split_length f l). lia.
  - specialize (IH Hx). destruct (f y); simpl; lia.
Qed.

(** X9. Once every stored request is at least 60 seconds old, a key with a
    positive limit is admitted again and its window restarts with the
    current request alone. *)
Theorem check_request_after_window (t1 t2 : Q) (k : string) (limit : Z)
    (counters : gmap string WindowCounter) :
  (0 < limit)%Z ->
  Forall (fun t => (t <= t1 - 60)%Q) (timestamps (counter_of k counters)) ->
  fst (check_request t1 t2 k limit counters) = Ok tt /\
  timestamps (counter_of k (snd (check_request t1 t2 k limit counters))) = [t2].
Proof.
  intros Hlimit Hold.
  assert (Hw : window t1 k counters = []).
  { rewrite window_eq. apply filter_none.
    eapply Forall_impl; [exact Hold|]. intros t Ht. by apply Qltb_false_le. }
  assert (Hroom : (Z.of_nat (length (window t1 k counters)) < limit)%Z).
  { rewrite Hw. simpl. lia. }
  rewrite (check_request_admit _ _ _ _ _ Hroom). cbn [fst snd].
  split; [done|]. rewrite counter_of_insert. cbn [add_request timestamps].
  change (timestamps (snd (request_count t1 60 (counter_of k counters))))
    with (window t1 k counters).
  by rewrite Hw.
Qed.

Lemma check_request_after_window_witness :
  fst (check_request 61 61 "k" 1 one_request) = Ok tt /\
  timestamps (counter_of "k" (snd (check_request 61 61 "k" 1 one_request))) = [61%Q].
Proof.
  apply (check_request_after_window 61 61 "k" 1 one_request).
  - lia.
  - unfold counter_of, one_request. rewrite lookup_singleton_eq. simpl.
    constructor; [|constructor]. vm_compute. discriminate.
Defined.

(** X10. The Retry-After of a rejection is long enough: when the window held
    exactly [rpm_limit] requests, the same key is admitted at any time at
    least Retry-After seconds after the rejection. *)
Theorem retry_after_suffices (t1 t2 t1' t2' : Q) (k : string) (limit : Z)
    (counters : gmap string WindowCounter) :
  (0 < limit)%Z ->
  Z.of_nat (length (window t1 k counters)) = limit ->
  (t2 + inject_Z (_estimate_retry_after t2
                    (snd (request_count t1 60 (counter_of k counters)))) <= t1')%Q ->
  fst (check_request t1 t2 k limit counters)
    = Raise (rate_limit_exceeded limit limit
               (_estimate_retry_after t2
                  (snd (request_count t1 60 (counter_of k counters))))) /\
  fst (check_request t1' t2' k limit (snd (check_request t1 t2 k limit counters))) = Ok tt.
Proof.
  intros Hlimit Hfull Hwait.
  assert (Hrej : (limit <= Z.of_nat (length (window t1 k counters)))%Z) by lia.
  split.
  { rewrite (check_request_reject _ _ _ _ _ Hrej). cbn [fst]. by rewrite Hfull. }
  rewrite check_request_admit; [done|].
  rewrite window_eq, check_request_timestamps.
  destruct (Z.leb_spec limit (Z.of_nat (length (window t1 k counters)))); [|lia].
  rewrite estimate_window in Hwait.
  destruct (window t1 k counters) as [|t ts] eqn:Hw; [simpl in Hfull; lia|].
  rewrite <- Hfull. apply inj_lt.
  apply (filter_drops_one _ _ (py_min t ts)); [apply py_min_in|].
  apply Qltb_false_le.
  pose proof (py_int_succ_gt (60 - (t2 - py_min t ts))) as Hgt.
  assert (Hmax : (inject_Z (py_int (60 - (t2 - py_min t ts)) + 1)
                  <= inject_Z (Z.max 1 (py_int (60 - (t2 - py_min t ts)) + 1)))%Q).
  { rewrite <- Zle_Qle. lia. }
  lra.
Qed.

Lemma retry_after_suffices_witness :
  fst (check_request (121 / 2) (121 / 2) "k" 1
         (snd (check_request (59 / 2) (59 / 2) "k" 1 one_request))) = Ok tt.
Proof.
  apply (retry_after_suffices (59 / 2) (59 / 2) (121 / 2) (121 / 2) "k" 1 one_request).
  - lia.
  - rewrite window_one_request. reflexivity.
  - rewrite estimate_window, window_one_request. vm_compute. discriminate.
Defined.

End RateLimitExtras.

Section RateLimitBurst.

Import RateLimit.

Lemma length_filter_le {A : Type} (f : A -> bool) (l : list A) :
  length (List.filter f l) <= length l.
Proof. pose proof (filter_split_length f l). lia. Qed.

(** X11. A window that holds at most [rpm_limit] requests never grows beyond
    [rpm_limit], whatever the outcome of the check. *)
Theorem check_request_bounded (t1 t2 : Q) (k : string) (limit : Z)
    (counters : gmap string WindowCounter) :
  (Z.of_nat (length (timestamps (counter_of k counters))) <= limit)%Z ->
  (Z.of_nat (length (timestamps
                       (counter_of k (snd (check_request t1 t2 k limit counters)))))
   <= limit)%Z.
Proof.
  intros Hbound. rewrite check_request_timestamps.
  pose proof (length_filter_le (fun t => Qltb (t1 - 60) t)
                (timestamps (counter_of k counters))) as Hle.
  rewrite <- window_eq in Hle.
  destruct (Z.leb_spec limit (Z.of_nat (length (window t1 k counters)))).
  - lia.
  - rewrite length_app. simpl. lia.
Qed.

Lemma check_request_bounded_witness :
  (Z.of_nat (length (timestamps
                       (counter_of "k" (snd (check_request 1 1 "k" 1 one_request)))))
   <= 1)%Z.
Proof.
  apply (check_request_bounded 1 1 "k" 1 one_request).
  unfold counter_of, one_request. rewrite lookup_singleton_eq. simpl. lia.
Defined.

(** X12. Requests are counted per key and apart from tokens: the outcome for a
    key does not depend on the tokens recorded for any key, nor on the
    requests of another key, whose counter a check leaves alone. *)
Theorem check_request_independent (t1 t2 now u1 u2 : Q) (k other : string)
    (limit limit' : Z) (n : value) (counters : gmap string WindowCounter) :
  fst (check_request t1 t2 k limit (record_tokens now other n counters))
    = fst (check_request t1 t2 k limit counters) /\
  (other <> k ->
   fst (check_request t1 t2 k limit (snd (check_request u1 u2 other limit' counters)))
     = fst (check_request t1 t2 k limit counters) /\
   snd (check_request t1 t2 k limit counters) !! other = counters !! other).
Proof.
  assert (Hfst : forall c1 c2 : gmap string WindowCounter,
             timestamps (counter_of k c1) = timestamps (counter_of k c2) ->
             fst (check_request t1 t2 k limit c1) = fst (check_request t1 t2 k limit c2)).
  { intros c1 c2 Heq. unfold check_request, request_count, _estimate_retry_after.
    cbn [fst snd timestamps]. rewrite Heq.
    by destruct (limit <=? _)%Z. }
  split.
  - apply Hfst. unfold record_tokens.
    destruct (decide (other = k)) as [->|Hne].
    + by rewrite counter_of_insert.
    + unfold counter_of. by rewrite lookup_insert_ne.
  - intros Hne. split.
    + apply Hfst. unfold counter_of, check_request, request_count. cbn [fst snd].
      destruct (limit' <=? _)%Z; cbn [snd]; by rewrite lookup_insert_ne.
    + unfold check_request, request_count. cbn [fst snd].
      destruct (limit <=? _)%Z; cbn [snd]; apply lookup_insert_ne; congruence.
Qed.

Lemma check_request_independent_witness :
  snd (check_request 1 1 "k" 5 one_request) !! "j" = one_request !! "j".
Proof.
  apply (check_request_independent 1 1 0 0 0 "k" "j" 5 5 VNone one_request).
  discriminate.
Defined.

(** The burst lemma, from any state whose stored requests all lie in the
    interval of the calls. *)
Lemma check_requests_window (lo hi : Q) (k : string) (limit : Z) (calls : list (Q * Q)) :
  (hi - 60 < lo)%Q ->
  forall (counters : gmap string WindowCounter),
    Forall (fun t => (lo <= t)%Q) (timestamps (counter_of k counters)) ->
    Forall (fun c => (lo <= fst c <= hi)%Q /\ (lo <= snd c <= hi)%Q) calls ->
    length (fst (check_requests calls k limit counters)) = length calls /\
    forall (i : nat) (r : result unit),
      fst (check_requests calls k limit counters) !! i = Some r ->
      ((Z.of_nat (length (timestamps (counter_of k counters))) + Z.of_nat i < limit)%Z
         -> r = Ok tt) /\
      ((limit <= Z.of_nat (length (timestamps (counter_of k counters))) + Z.of_nat i)%Z
         -> rejected r).
Proof.
  intros Hspan. induction calls as [|[t1 t2] calls IH]; intros counters Hts Hcalls.
  - split; [done|]. intros i r Hi. simpl in Hi. discriminate.
  - apply Forall_cons in Hcalls as [[[Hlo1 Hhi1] [Hlo2 Hhi2]] Hcalls].
    simpl in Hlo1, Hhi1, Hlo2, Hhi2.
    assert (Hw : window t1 k counters = timestamps (counter_of k counters)).
    { rewrite window_eq. apply filter_all.
      eapply Forall_impl; [exact Hts|]. intros t Ht. simpl in Ht. apply Qltb_lt. lra. }
    pose proof (check_request_timestamps t1 t2 k limit counters) as Hnext.
    rewrite Hw in Hnext.
    change (check_requests ((t1, t2) :: calls) k limit counters) with
      (let '(r, counters1) := check_request t1 t2 k limit counters in
       let '(rs, counters2) := check_requests calls k limit counters1 in
       (r :: rs, counters2)).
    destruct (check_request t1 t2 k limit counters) as [r0 counters1] eqn:Hcall.
    cbn [snd] in Hnext.
    assert (Hr0 : r0 = fst (check_request t1 t2 k limit counters)) by (by rewrite Hcall).
    assert (Hts1 : Forall (fun t => (lo <= t)%Q) (timestamps (counter_of k counters1))).
    { rewrite Hnext. destruct (limit <=? _)%Z; [done|].
      apply Forall_app. split; [done|]. by constructor. }
    destruct (IH counters1 Hts1 Hcalls) as [Hlen Hrest].
    destruct (check_requests calls k limit counters1) as [rs counters2].
    cbn [fst] in *. split; [simpl; by rewrite Hlen|].
    intros [|i] r Hi; simpl in Hi.
    + injection Hi as <-. rewrite Z.add_0_r. split.
      * intros Hroom. rewrite Hr0. rewrite check_request_admit; [done|].
        by rewrite Hw.
      * intros Hfull. rewrite Hr0. rewrite check_request_reject by (by rewrite Hw).
        eexists. split; reflexivity.
    + destruct (Hrest i r Hi) as [Hok Hrej]. rewrite Hnext in Hok, Hrej.
      destruct (Z.leb_spec limit
                  (Z.of_nat (length (timestamps (counter_of k counters))))).
      * split; [lia|]. intros _. apply Hrej. lia.
      * rewrite length_app in Hok, Hrej. simpl in Hok, Hrej.
        split; intros ?; [apply Hok | apply Hrej]; lia.
Qed.

(** X13. A burst: of the requests a fresh key sends within less than 60
    seconds, exactly the first [rpm_limit] are admitted and every later
    one is rejected with status 429. *)
Theorem check_requests_burst (lo hi : Q) (k : string) (limit : Z) (calls : list (Q * Q))
    (counters : gmap string WindowCounter) :
  counters !! k = None ->
  (hi - 60 < lo)%Q ->
  Forall (fun c => (lo <= fst c <= hi)%Q /\ (lo <= snd c <= hi)%Q) calls ->
  length (fst (check_requests calls k limit counters)) = length calls /\
  forall (i : nat) (r : result unit),
    fst (check_requests calls k limit counters) !! i = Some r ->
    ((Z.of_nat i < limit)%Z -> r = Ok tt) /\
    ((limit <= Z.of_nat i)%Z -> rejected r).
Proof.
  intros Hfresh Hspan Hcalls.
  assert (Hempty : timestamps (counter_of k counters) = []).
  { unfold counter_of. by rewrite Hfresh. }
  destruct (check_requests_window lo hi k limit calls Hspan counters) as [Hlen Hres];
    [by rewrite Hempty | done |].
  split; [done|]. intros i r Hi. rewrite Hempty in Hres. apply (Hres i r Hi).
Qed.

Lemma check_requests_burst_witness :
  length (fst (check_requests [(0, 0); (1, 1); (2, 2)]%Q "k" 2 ∅)) = 3%nat /\
  (fst (check_requests [(0, 0); (1, 1); (2, 2)]%Q "k" 2 ∅) !! 2%nat
     = Some (Raise (rate_limit_exceeded 2 2 59)) ->
   rejected (Raise (rate_limit_exceeded 2 2 59))).
Proof.
  destruct (check_requests_burst 0 2 "k" 2 [(0, 0); (1, 1); (2, 2)]%Q ∅) as [Hlen Hres].
  - apply lookup_empty.
  - reflexivity.
  - repeat constructor; simpl; discriminate.
  - split; [exact Hlen|]. intros Hthird. apply (Hres 2%nat _ Hthird). lia.
Defined.

(** The burst of the example: two admissions, then a rejection. *)
Example check_requests_three :
  fst (check_requests [(0, 0); (1, 1); (2, 2)]%Q "k" 2 ∅)
    = [Ok tt; Ok tt; Raise (rate_limit_exceeded 2 2 59)].
Proof. vm_compute. reflexivity. Qed.

End RateLimitBurst.

(** ** Model registry: lookups after a reload *)

Section RouterExtras.

Import Router.

Variable str_of_list : list string -> string.

Lemma dict_get_backend_of (entries : list (string * dict)) (name : string) :
  dict_get name (map backend_of entries)
    = (fun mc => snd (backend_of (name, mc))) <$> dict_get name entries.
Proof.
  induction entries as [|[n mc] entries IH]; simpl; [done|].
  destruct (String.eqb_spec name n) as [->|Hne]; [done | apply IH].
Qed.

Lemma dict_get_None {V : Type} (d : pydict V) (k : string) :
  dict_get k d = None <-> k ∉ map fst d.
Proof.
  induction d as [|[k' v] d IH]; simpl.
  - split; [intros _; apply not_elem_of_nil | done].
  - destruct (String.eqb_spec k k') as [->|Hne].
    + split; [done|]. intros Hnin. destruct Hnin. left.
    + rewrite IH, not_elem_of_cons. split; [by split | by intros [_ ?]].
Qed.

Lemma dict_get_Some_NoDup {V : Type} (d : pydict V) (k : string) (v : V) :
  NoDup (map fst d) -> (k, v) ∈ d -> dict_get k d = Some v.
Proof.
  induction d as [|[k' v'] d IH]; simpl; intros Hnodup Hin.
  - by apply elem_of_nil in Hin.
  - apply NoDup_cons in Hnodup as [Hk' Hnodup].
    apply elem_of_cons in Hin as [[= <- <-]|Hin].
    + by rewrite String.eqb_refl.
    + destruct (String.eqb_spec k k') as [->|Hne]; [|by apply IH].
      destruct Hk'. apply list_elem_of_fmap. by exists (k', v).
Qed.

Lemma reload_parsed (c : dict) (entries : list (string * dict))
    (backends : pydict ModelBackend) :
  dict_get_default "models" (VDict []) c = VDict (map entry_value entries) ->
  NoDup (map fst entries) ->
  reload (Parsed (VDict c)) backends = (Ok tt, map backend_of entries).
Proof.
  intros Hmodels Hnodup. unfold reload. simpl. rewrite Hmodels. simpl.
  rewrite load_backends_fresh; [done | done |].
  intros k _. simpl. apply not_elem_of_nil.
Qed.

(** X14. After a reload, [resolve] knows exactly the models of the catalog:
    each catalog name resolves to the backend built from its entry, and
    any other name, also one that was registered before the reload, is
    answered with 404 model_not_found. *)
Theorem reload_then_resolve (c : dict) (entries : list (string * dict))
    (backends : pydict ModelBackend) :
  dict_get_default "models" (VDict []) c = VDict (map entry_value entries) ->
  NoDup (map fst entries) ->
  (forall name mc,
     (name, mc) ∈ entries ->
     resolve str_of_list name (snd (reload (Parsed (VDict c)) backends))
       = Ok (snd (backend_of (name, mc)))) /\
  (forall name,
     name ∉ map fst entries ->
     resolve str_of_list name (snd (reload (Parsed (VDict c)) backends))
       = Raise (model_not_found name (str_of_list (map fst entries)))).
Proof.
  intros Hmodels Hnodup. rewrite (reload_parsed _ _ _ Hmodels Hnodup). cbn [snd].
  unfold resolve. split.
  - intros name mc Hin. rewrite dict_get_backend_of.
    by rewrite (dict_get_Some_NoDup _ _ _ Hnodup Hin).
  - intros name Hnin. rewrite dict_get_backend_of.
    apply dict_get_None in Hnin. rewrite Hnin. simpl. do 3 f_equal.
    clear. induction entries as [|[n mc] entries IH]; simpl; [done | by rewrite IH].
Qed.

(** X15. The registry keeps the order of the catalog: the default model is the
    first model of the file, [list_models] lists the names in file order
    and [model_count] is the number of catalog entries. *)
Theorem reload_registration_order (c : dict) (entries : list (string * dict))
    (backends : pydict ModelBackend) :
  dict_get_default "models" (VDict []) c = VDict (map entry_value entries) ->
  NoDup (map fst entries) ->
  get_default_model (snd (reload (Parsed (VDict c)) backends)) = head (map fst entries) /\
  map (dict_get "id") (list_models (snd (reload (Parsed (VDict c)) backends)))
    = map (fun e => Some (VStr (fst e))) entries /\
  model_count (snd (reload (Parsed (VDict c)) backends)) = Z.of_nat (length entries).
Proof.
  intros Hmodels Hnodup. rewrite (reload_parsed _ _ _ Hmodels Hnodup). cbn [snd].
  split; [|split].
  - by destruct entries as [|[n mc] entries].
  - unfold list_models. clear.
    induction entries as [|[n mc] entries IH]; simpl; [done | by rewrite IH].
  - unfold model_count. by rewrite length_map.
Qed.

(** X16. A catalog file without a models section is not an error: the reload
    succeeds and leaves the registry empty, so no default model exists
    and every name is answered with 404. *)
Theorem reload_without_models (c : dict) (backends : pydict ModelBackend) (name : string) :
  dict_get "models" c = None ->
  reload (Parsed (VDict c)) backends = (Ok tt, []) /\
  get_default_model (snd (reload (Parsed (VDict c)) backends)) = None /\
  resolve str_of_list name (snd (reload (Parsed (VDict c)) backends))
    = Raise (model_not_found name (str_of_list [])).
Proof.
  intros Hnone.
  assert (Hre : reload (Parsed (VDict c)) backends = (Ok tt, [])).
  { unfold reload, value_get, dict_get_default. simpl. by rewrite Hnone. }
  rewrite Hre. by repeat split.
Qed.

End RouterExtras.

Section RouterExamples.

Import Router.

Lemma two_models_NoDup : NoDup (map fst two_models).
Proof.
  simpl. apply NoDup_cons. split; [|apply NoDup_singleton].
  intros Hin. apply list_elem_of_singleton in Hin. discriminate.
Qed.

Lemma two_models_without_m0 : "m0" ∉ map fst two_models.
Proof.
  simpl. intros Hin. apply elem_of_cons in Hin as [?|Hin]; [discriminate|].
  apply list_elem_of_singleton in Hin. discriminate.
Qed.

Lemma reload_then_resolve_witness :
  resolve (fun _ => "[]") "m2"
    (snd (reload (Parsed (VDict [("models", VDict (map entry_value two_models))]))
            old_backends))
    = Ok (snd (backend_of ("m2", [("tier", VStr "premium")]))) /\
  resolve (fun _ => "[]") "m0"
    (snd (reload (Parsed (VDict [("models", VDict (map entry_value two_models))]))
            old_backends))
    = Raise (model_not_found "m0" "[]").
Proof.
  destruct (reload_then_resolve (fun _ => "[]")
              [("models", VDict (map entry_value two_models))] two_models old_backends)
    as [Hknown Hunknown].
  - reflexivity.
  - apply two_models_NoDup.
  - split.
    + apply Hknown. right. left.
    + apply Hunknown, two_models_without_m0.
Defined.

Lemma reload_registration_order_witness :
  get_default_model
    (snd (reload (Parsed (VDict [("models", VDict (map entry_value two_models))]))
            old_backends))
    = Some "m1".
Proof.
  apply (reload_registration_order
           [("models", VDict (map entry_value two_models))] two_models old_backends).
  - reflexivity.
  - apply two_models_NoDup.
Defined.

Lemma reload_without_models_witness :
  reload (Parsed (VDict [("tiering", VDict [])])) old_backends = (Ok tt, []).
Proof.
  apply (reload_without_models (fun _ => "[]") [("tiering", VDict [])] old_backends "m0").
  reflexivity.
Defined.

End RouterExamples.

(** ** Credential store: validation, revocation, the bearer header *)

Section AuthExtras.

Import Auth Auth.Manager.

Lemma dict_get_set_eq {V : Type} (k : string) (v : V) (d : pydict V) :
  dict_get k (dict_set k v d) = Some v.
Proof.
  induction d as [|[k' v'] d IH]; simpl.
  - by rewrite String.eqb_refl.
  - destruct (String.eqb_spec k k') as [->|Hne]; simpl.
    + by rewrite String.eqb_refl.
    + by destruct (String.eqb_spec k k').
Qed.

Lemma dict_get_set_ne {V : Type} (k k' : string) (v : V) (d : pydict V) :
  k' <> k -> dict_get k' (dict_set k v d) = dict_get k' d.
Proof.
  intros Hne. induction d as [|[k0 v0] d IH]; simpl.
  - by destruct (String.eqb_spec k' k).
  - destruct (String.eqb_spec k k0) as [->|Hk]; simpl.
    + by destruct (String.eqb_spec k' k0).
    + destruct (String.eqb_spec k' k0); [done | apply IH].
Qed.

Lemma dict_set_present_length {V : Type} (k : string) (v : V) (d : pydict V) :
  is_Some (dict_get k d) -> map fst (dict_set k v d) = map fst d.
Proof.
  induction d as [|[k' v'] d IH]; simpl; intros [x Hx]; [done|].
  destruct (String.eqb_spec k k') as [->|Hne]; simpl; [done|].
  f_equal. apply IH. by exists x.
Qed.

(** X17. A key that has been added validates, with the limits it was given,
    also when it replaces a revoked key of the same name; the keys of
    other names validate as before. *)
Theorem add_key_then_validate (now : Q) (k owner tier : string) (rpm tpm : Z)
    (mgr : AuthManager) (files : gmap string value) :
  validate k (snd (fst (add_key now k owner tier rpm tpm mgr files)))
    = Some (mkAPIKey k owner tier rpm tpm now true) /\
  forall k', k' <> k ->
    validate k' (snd (fst (add_key now k owner tier rpm tpm mgr files))) = validate k' mgr.
Proof.
  unfold add_key, validate. cbn [fst snd _keys]. split.
  - by rewrite dict_get_set_eq.
  - intros k' Hne. by rewrite dict_get_set_ne.
Qed.

(** X18. Revoking a stored key makes [validate] refuse it, while the key stays
    in the store under its name and position, and the other keys
    validate as before; revoking an unknown key reports false and changes
    neither the store nor any file. *)
Theorem revoke_key_then_validate (k : string) (mgr : AuthManager)
    (files : gmap string value) :
  (is_Some (dict_get k (_keys mgr)) ->
   fst (fst (revoke_key k mgr files)) = true /\
   validate k (snd (fst (revoke_key k mgr files))) = None /\
   map fst (_keys (snd (fst (revoke_key k mgr files)))) = map fst (_keys mgr) /\
   key_count (snd (fst (revoke_key k mgr files))) = key_count mgr /\
   forall k', k' <> k ->
     validate k' (snd (fst (revoke_key k mgr files))) = validate k' mgr) /\
  (dict_get k (_keys mgr) = None -> revoke_key k mgr files = (false, mgr, files)).
Proof.
  split.
  - intros [x Hx]. unfold revoke_key. rewrite Hx. cbn [fst snd].
    assert (Hnames : map fst (dict_set k (deactivate x) (_keys mgr)) = map fst (_keys mgr)).
    { apply dict_set_present_length. by exists x. }
    split; [done|]. split; [|split; [done|split]].
    + unfold validate. cbn [_keys]. by rewrite dict_get_set_eq.
    + unfold key_count. cbn [_keys].
      by rewrite <- (length_map fst (dict_set _ _ _)), Hnames, length_map.
    + intros k' Hne. unfold validate. cbn [_keys]. by rewrite dict_get_set_ne.
  - intros Hnone. unfold revoke_key. by rewrite Hnone.
Qed.

Lemma revoke_key_then_validate_witness :
  validate "sk-1" (snd (fst (revoke_key "sk-1" one_key ∅))) = None /\
  revoke_key "sk-2" one_key ∅ = (false, one_key, ∅).
Proof.
  destruct (revoke_key_then_validate "sk-1" one_key ∅) as [Hknown _].
  destruct (revoke_key_then_validate "sk-2" one_key ∅) as [_ Hunknown].
  split.
  - apply Hknown. by eexists.
  - apply Hunknown. reflexivity.
Defined.

(** X19. With a key file configured, the file holds the dump of the keys in
    memory after every [add_key] and every successful [revoke_key];
    without one, neither operation writes anything. *)
Theorem keys_file_in_sync (now : Q) (k owner tier : string) (rpm tpm : Z)
    (mgr : AuthManager) (files : gmap string value) :
  (_keys_file mgr <> "" ->
   snd (add_key now k owner tier rpm tpm mgr files) !! _keys_file mgr
     = Some (keys_document (_keys (snd (fst (add_key now k owner tier rpm tpm mgr files)))))
   /\
   (is_Some (dict_get k (_keys mgr)) ->
    snd (revoke_key k mgr files) !! _keys_file mgr
      = Some (keys_document (_keys (snd (fst (revoke_key k mgr files))))))) /\
  (_keys_file mgr = "" ->
   snd (add_key now k owner tier rpm tpm mgr files) = files /\
   snd (revoke_key k mgr files) = files).
Proof.
  split.
  - intros Hfile. apply str_truthy_true in Hfile. split.
    + unfold add_key, save_keys. cbn [fst snd _keys _keys_file Tiering.str_truthy].
      change (Tiering.str_truthy "") with false. cbv iota. rewrite Hfile.
      apply lookup_insert_eq.
    + intros [x Hx]. unfold revoke_key, save_keys. rewrite Hx.
      cbn [fst snd _keys _keys_file].
      change (Tiering.str_truthy "") with false. cbv iota. rewrite Hfile.
      apply lookup_insert_eq.
  - intros Hnone. unfold add_key, revoke_key, save_keys.
    destruct (dict_get k (_keys mgr)); cbn [fst snd _keys_file]; rewrite Hnone; done.
Qed.

Lemma keys_file_in_sync_witness :
  snd (add_key 1 "gk-new" "dev" "standard" 60 1000
         (mkAuthManager [] "data/keys.json") ∅) !! "data/keys.json"
    = Some (keys_document [("gk-new", mkAPIKey "gk-new" "dev" "standard" 60 1000 1 true)])
  /\ snd (add_key 1 "gk-new" "dev" "standard" 60 1000 one_key ∅) = ∅.
Proof.
  split.
  - apply (keys_file_in_sync 1 "gk-new" "dev" "standard" 60 1000
             (mkAuthManager [] "data/keys.json") ∅).
    discriminate.
  - apply (keys_file_in_sync 1 "gk-new" "dev" "standard" 60 1000 one_key ∅).
    reflexivity.
Defined.

Lemma prefix_drop (p s : string) :
  String.prefix p s = true -> s = p +:+ Stream.str_drop (String.length p) s.
Proof.
  revert s. induction p as [|c p IH]; intros s Hp; [done|].
  destruct s as [|c' s]; simpl in *; [done|].
  destruct (Ascii.ascii_dec c c') as [->|Hne]; [|done].
  change (String c' s = String c' (p +:+ Stream.str_drop (String.length p) s)).
  f_equal. by apply IH.
Qed.

Lemma prefix_app (p k : string) :
  String.prefix p (p +:+ k) = true /\ Stream.str_drop (String.length p) (p +:+ k) = k.
Proof.
  induction p as [|c p [IH1 IH2]]; simpl; [by destruct k|].
  destruct (Ascii.ascii_dec c c); [done | congruence].
Qed.

(** X20. [extract_api_key] yields a key exactly for a header that starts with
    "Bearer " (with this capitalisation and one space), and the key is the
    rest of the header, which may be empty; any other header, or none, is
    answered with 401. *)
Theorem extract_api_key_bearer (authorization : option string) (k : string) :
  (extract_api_key authorization = Ok k <-> authorization = Some ("Bearer " +:+ k)) /\
  (forall e, extract_api_key authorization = Raise e ->
             RateLimit.status_of e = Some 401%Z /\
             RateLimit.error_code e = Some (VStr "invalid_api_key")).
Proof.
  unfold extract_api_key. split.
  - split.
    + intros Hok. destruct authorization as [h|]; [|done].
      destruct (String.prefix "Bearer " h) eqn:Hp; [|done].
      injection Hok as <-. f_equal. apply (prefix_drop "Bearer " h Hp).
    + intros ->. destruct (prefix_app "Bearer " k) as [Hp Hd].
      rewrite Hp. f_equal.
  - intros e. destruct (String.prefix "Bearer " _); [done|].
    by intros [= <-].
Qed.

End AuthExtras.

(** ** Usage ledger: rows and aggregates *)

Section MeteringExtras.

Import Metering.










End MeteringExtras.

(** ** Stream relay: the frames sent *)

Section StreamExtras.

Import Metering Stream.

Variable json_loads : string -> option value.
Variable json_dumps : value -> string.







End StreamExtras.

Section StreamExtraExamples.

Import Metering Stream.



End StreamExtraExamples.

(** ** Request pipeline: the order of the steps *)

Section PipelineOrder.

Import Gateway.

Variable re_search : string -> string -> bool.
Variable str_of_list : list string -> string.
Variable json_loads : string -> option value.
Variable json_dumps : value -> string.

Lemma extract_api_key_of_bearer (k : string) :
  Auth.extract_api_key (Some ("Bearer " +:+ k)) = Ok k.
Proof. unfold Auth.extract_api_key. simpl. by destruct k. Qed.

Lemma extract_api_key_inv (h : option string) (k : string) :
  Auth.extract_api_key h = Ok k -> h = Some ("Bearer " +:+ k).
Proof.
  unfold Auth.extract_api_key. intros Hok. destruct h as [h|]; [|done].
  destruct (String.prefix "Bearer " h) eqn:Hp; [|done].
  injection Hok as <-. f_equal. apply (prefix_drop "Bearer " h Hp).
Qed.

Lemma extract_api_key_status (h : option string) (e : exn) :
  Auth.extract_api_key h = Raise e -> RateLimit.status_of e = Some 401%Z.
Proof.
  unfold Auth.extract_api_key. destruct (String.prefix "Bearer " _); [done|].
  by intros [= <-].
Qed.

Lemma chat_completions_answer (clk : Clock) (on_post : reply) (on_stream : Stream.upstream)
    (req : Request) (gw gw' : Gateway) (r : result response) :
  prepare re_search str_of_list clk req gw = Some (Answer r, gw') ->
  chat_completions re_search str_of_list json_loads json_dumps clk on_post on_stream req gw
    = Some (r, gw').
Proof. intros Hp. unfold chat_completions. by rewrite Hp. Qed.

(** X25. Authentication comes first: a request without a bearer header, or
    with a key that is unknown or revoked, is answered with 401 and
    touches no store, not even the rate limiter. *)
Theorem chat_completions_unauthenticated (clk : Clock) (on_post : reply)
    (on_stream : Stream.upstream) (req : Request) (gw : Gateway) :
  (forall k, authorization req = Some ("Bearer " +:+ k) ->
             Auth.Manager.validate k (auth_manager gw) = None) ->
  exists r : result response,
    chat_completions re_search str_of_list json_loads json_dumps clk on_post on_stream
        req gw = Some (r, gw) /\
    status_of_result r = Some 401%Z.
Proof.
  intros Hinvalid.
  destruct (Auth.extract_api_key (authorization req)) as [k|e] eqn:Hextract.
  - pose proof (Hinvalid k (extract_api_key_inv _ _ Hextract)) as Hnone.
    eexists. split;
      [apply chat_completions_answer; unfold prepare; by rewrite Hextract, Hnone
      | reflexivity].
  - exists (Raise e). split; [|by apply (extract_api_key_status _ _ Hextract)].
    apply chat_completions_answer. unfold prepare. by rewrite Hextract.
Qed.

End PipelineOrder.

Section PipelineSteps.

Import Gateway.

Variable re_search : string -> string -> bool.
Variable str_of_list : list string -> string.
Variable json_loads : string -> option value.
Variable json_dumps : value -> string.

(** The outcome of a call by key [k] that the rate limiter turns down. *)
Lemma prepare_rate_limited (clk : Clock) (req : Request) (gw : Gateway)
    (k : string) (key : Auth.APIKey) :
  authorization req = Some ("Bearer " +:+ k) ->
  Auth.Manager.validate k (auth_manager gw) = Some key ->
  (Auth.rpm_limit key
     <= Z.of_nat (length (RateLimit.window (t_count clk) k (rate_limiter gw))))%Z ->
  prepare re_search str_of_list clk req gw =
    Some (Answer
            (Raise (RateLimit.rate_limit_exceeded
                      (Z.of_nat (length (RateLimit.window (t_count clk) k
                                           (rate_limiter gw))))
                      (Auth.rpm_limit key)
                      (RateLimit._estimate_retry_after (t_next clk)
                         (snd (RateLimit.request_count (t_count clk) 60
                                 (RateLimit.counter_of k (rate_limiter gw))))))),
          set_rate_limiter
            (<[k := snd (RateLimit.request_count (t_count clk) 60
                           (RateLimit.counter_of k (rate_limiter gw)))]>
               (rate_limiter gw)) gw).
Proof.
  intros Hauth Hkey Hfull. unfold prepare.
  rewrite Hauth, extract_api_key_of_bearer, Hkey.
  by rewrite (check_request_reject _ _ _ _ _ Hfull).
Qed.

(** X26. A call over the request limit is answered with 429 before its body
    is read: no session is created or touched and nothing is metered. *)
Theorem chat_completions_rate_limited (clk : Clock) (on_post : reply)
    (on_stream : Stream.upstream) (req : Request) (gw : Gateway)
    (k : string) (key : Auth.APIKey) :
  authorization req = Some ("Bearer " +:+ k) ->
  Auth.Manager.validate k (auth_manager gw) = Some key ->
  (Auth.rpm_limit key
     <= Z.of_nat (length (RateLimit.window (t_count clk) k (rate_limiter gw))))%Z ->
  exists (r : result response) (gw' : Gateway),
    chat_completions re_search str_of_list json_loads json_dumps clk on_post on_stream
        req gw = Some (r, gw') /\
    status_of_result r = Some 429%Z /\
    session_manager gw' = session_manager gw /\
    usage_meter gw' = usage_meter gw /\
    RateLimit.timestamps (RateLimit.counter_of k (rate_limiter gw'))
      = RateLimit.window (t_count clk) k (rate_limiter gw).
Proof.
  intros Hauth Hkey Hfull.
  eexists _, _. split;
    [apply chat_completions_answer, (prepare_rate_limited _ _ _ _ _ Hauth Hkey Hfull)|].
  split; [done|]. split; [done|]. split; [done|].
  cbn [rate_limiter set_rate_limiter]. by rewrite counter_of_insert.
Qed.

(** X27. The request is counted before its body is looked at: a call that is
    admitted by the rate limiter and then fails, because its body is not
    JSON or because it names an unknown model, has used one of the key's
    requests, while no session is created and nothing is metered. *)
Theorem chat_completions_counts_failed_requests (clk : Clock) (on_post : reply)
    (on_stream : Stream.upstream) (req : Request) (gw : Gateway)
    (k : string) (key : Auth.APIKey) :
  authorization req = Some ("Bearer " +:+ k) ->
  Auth.Manager.validate k (auth_manager gw) = Some key ->
  (Z.of_nat (length (RateLimit.window (t_count clk) k (rate_limiter gw)))
     < Auth.rpm_limit key)%Z ->
  (json req = None \/
   exists body m,
     json req = Some (VDict body) /\
     dict_get "model" body = Some (VStr m) /\ m <> "" /\
     Tiering.opt_truthy (x_gonka_tier req) = false /\
     dict_get m (model_router gw) = None) ->
  exists (r : result response) (gw' : Gateway),
    chat_completions re_search str_of_list json_loads json_dumps clk on_post on_stream
        req gw = Some (r, gw') /\
    (status_of_result r = Some 400%Z \/ status_of_result r = Some 404%Z) /\
    session_manager gw' = session_manager gw /\
    usage_meter gw' = usage_meter gw /\
    RateLimit.timestamps (RateLimit.counter_of k (rate_limiter gw'))
      = RateLimit.window (t_count clk) k (rate_limiter gw) ++ [t_next clk].
Proof.
  intros Hauth Hkey Hroom Hfail.
  assert (Hcounted :
    RateLimit.timestamps
      (RateLimit.counter_of k
         (snd (RateLimit.check_request (t_count clk) (t_next clk) k
                 (Auth.rpm_limit key) (rate_limiter gw))))
    = RateLimit.window (t_count clk) k (rate_limiter gw) ++ [t_next clk]).
  { rewrite (check_request_admit _ _ _ _ _ Hroom). cbn [snd].
    by rewrite counter_of_insert. }
  destruct Hfail as [Hjson | (body & m & Hjson & Hmodel & Hm & Htier & Hunknown)].
  - eexists _, _. split.
    { apply chat_completions_answer. unfold prepare.
      rewrite Hauth, extract_api_key_of_bearer, Hkey.
      rewrite (check_request_admit _ _ _ _ _ Hroom), Hjson. reflexivity. }
    split; [by left|]. split; [done|]. split; [done|].
    rewrite (check_request_admit _ _ _ _ _ Hroom) in Hcounted. exact Hcounted.
  - apply str_truthy_true in Hm.
    eexists _, _. split.
    { apply chat_completions_answer. unfold prepare.
      rewrite Hauth, extract_api_key_of_bearer, Hkey.
      rewrite (check_request_admit _ _ _ _ _ Hroom), Hjson, Hmodel.
      cbn [truthy]. fold (Tiering.str_truthy m). rewrite Hm, Htier.
      unfold Router.resolve. cbn [model_router set_rate_limiter].
      rewrite Hunknown. reflexivity. }
    split; [by right|]. split; [done|]. split; [done|].
    rewrite (check_request_admit _ _ _ _ _ Hroom) in Hcounted. exact Hcounted.
Qed.

End PipelineSteps.

Section PipelineForward.

Import Gateway.

Variable re_search : string -> string -> bool.
Variable str_of_list : list string -> string.
Variable json_loads : string -> option value.
Variable json_dumps : value -> string.

Lemma resolve_model_requested (cfg : Tiering.TieringConfig) (msgs : list dict)
    (m : string) (hint : option string) :
  m <> "" ->
  Tiering.resolve_model re_search cfg msgs (Some m) hint = Ok (chosen_model cfg hint m).
Proof.
  intros Hm. apply str_truthy_true in Hm. unfold Tiering.resolve_model, chosen_model.
  assert (Hh : (match hint with
                | Some h => if Tiering.str_truthy h then Tiering._resolve_tier cfg h else ""
                | None => ""
                end) = Tiering.hint_model cfg hint).
  { destruct hint as [h|]; [|done].
    destruct (Tiering.str_truthy h) eqn:Hh; [apply resolve_tier_table|].
    apply str_truthy_false in Hh. by subst h. }
  rewrite Hh. destruct (Tiering.str_truthy (Tiering.hint_model cfg hint)); [done|].
  by rewrite Hm.
Qed.

Lemma chosen_model_truthy (cfg : Tiering.TieringConfig) (hint : option string) (m : string) :
  m <> "" -> Tiering.str_truthy (chosen_model cfg hint m) = true.
Proof.
  intros Hm. unfold chosen_model.
  destruct (Tiering.str_truthy (Tiering.hint_model cfg hint)) eqn:Hh; [done|].
  by apply str_truthy_true.
Qed.

Lemma chosen_model_no_hint (cfg : Tiering.TieringConfig) (hint : option string) (m : string) :
  Tiering.opt_truthy hint = false -> chosen_model cfg hint m = m.
Proof.
  intros Hhint. unfold chosen_model.
  destruct hint as [h|]; [|done]. simpl in Hhint.
  apply str_truthy_false in Hhint. by subst h.
Qed.

Lemma as_messages_of_messages (ms : list dict) : as_messages (of_messages ms) = Some ms.
Proof.
  unfold as_messages, of_messages. induction ms as [|m ms IH]; simpl; [done|].
  by rewrite IH.
Qed.

Lemma dict_get_default_set_ne (k k' : string) (v d : value) (body : dict) :
  k' <> k ->
  dict_get_default k' d (dict_set k v body) = dict_get_default k' d body.
Proof. intros Hne. unfold dict_get_default. by rewrite dict_get_set_ne. Qed.

End PipelineForward.

Section PipelineReach.

Import Gateway.

Variable re_search : string -> string -> bool.
Variable str_of_list : list string -> string.
Variable json_loads : string -> option value.
Variable json_dumps : value -> string.

(** The preparation of a call that reaches the backend. *)
Lemma prepare_forward (clk : Clock) (req : Request) (gw : Gateway) (k : string)
    (key : Auth.APIKey) (body : dict) (m : string) (msgs : list dict)
    (backend : Router.ModelBackend) :
  authorization req = Some ("Bearer " +:+ k) ->
  Auth.Manager.validate k (auth_manager gw) = Some key ->
  (Z.of_nat (length (RateLimit.window (t_count clk) k (rate_limiter gw)))
     < Auth.rpm_limit key)%Z ->
  json req = Some (VDict body) ->
  dict_get "model" body = Some (VStr m) ->
  m <> "" ->
  as_messages (dict_get_default "messages" (VList []) body) = Some msgs ->
  dict_get (chosen_model (model_tiering gw) (x_gonka_tier req) m) (model_router gw)
    = Some backend ->
  prepare re_search str_of_list clk req gw =
    Some (Forward (truthy (dict_get_default "stream" (VBool false) body)) backend
            (forwarded_body clk req gw k body m msgs) k
            (chosen_model (model_tiering gw) (x_gonka_tier req) m),
          forwarded_gateway clk req gw k (Auth.rpm_limit key) msgs).
Proof.
  intros Hauth Hkey Hroom Hjson Hmodel Hm Hmsgs Hbackend.
  pose proof (chosen_model_truthy (model_tiering gw) (x_gonka_tier req) m Hm) as Hchosen.
  unfold prepare, forwarded_body, forwarded_gateway, session_of_request.
  rewrite Hauth, extract_api_key_of_bearer, Hkey.
  rewrite (check_request_admit _ _ _ _ _ Hroom). cbv beta iota zeta.
  rewrite Hjson, Hmodel.
  change (truthy (VStr m)) with (Tiering.str_truthy m).
  rewrite (proj2 (str_truthy_true m) Hm).
  cbn [model_tiering model_router session_manager set_rate_limiter rate_limiter snd].
  destruct (Tiering.opt_truthy (x_gonka_tier req)) eqn:Htier.
  - rewrite Hmsgs, (resolve_model_requested re_search _ _ _ _ Hm), Hchosen.
    unfold Router.resolve. rewrite Hbackend.
    rewrite (dict_get_default_set_ne "model" "messages") by discriminate.
    rewrite Hmsgs.
    destruct (x_gonka_session_id req) as [sid|].
    + destruct (Tiering.str_truthy sid).
      * unfold Sessions.session_step.
        destruct (Sessions.get_or_create _ _ _ sid k (session_manager gw)) as [s1 mgr1].
        destruct (Sessions.inject_history _ sid msgs mgr1) as [fw mgr2].
        cbn [fst snd].
        rewrite (dict_get_default_set_ne "messages" "stream") by discriminate.
        by rewrite (dict_get_default_set_ne "model" "stream") by discriminate.
      * by rewrite (dict_get_default_set_ne "model" "stream") by discriminate.
    + by rewrite (dict_get_default_set_ne "model" "stream") by discriminate.
  - rewrite (chosen_model_no_hint _ _ m Htier) in *.
    unfold Router.resolve. rewrite Hbackend, Hmsgs.
    destruct (x_gonka_session_id req) as [sid|]; [|done].
    destruct (Tiering.str_truthy sid); [|done].
    unfold Sessions.session_step.
    destruct (Sessions.get_or_create _ _ _ sid k (session_manager gw)) as [s1 mgr1].
    destruct (Sessions.inject_history _ sid msgs mgr1) as [fw mgr2].
    cbn [fst snd]. by rewrite (dict_get_default_set_ne "messages" "stream") by discriminate.
Qed.

End PipelineReach.

Section PipelineCalls.

Import Gateway.

Variable re_search : string -> string -> bool.
Variable str_of_list : list string -> string.
Variable json_loads : string -> option value.
Variable json_dumps : value -> string.


Lemma session_of_request_some (req : Request) (sid : string) :
  x_gonka_session_id req = Some sid -> sid <> "" -> session_of_request req = Some sid.
Proof.
  intros Hsid Hne. unfold session_of_request. rewrite Hsid.
  by rewrite (proj2 (str_truthy_true sid) Hne).
Qed.

(** X28. The model of a call is the configured model of a recognised tier
    hint, and otherwise the model the body names; the tiering rules and
    the messages play no part in it. The body sent to the backend is the
    client's body with that model, and every field other than the model
    and the messages as the client sent it. *)
Theorem chat_completions_model_choice (clk : Clock) (req : Request) (gw : Gateway)
    (k : string) (key : Auth.APIKey) (body : dict) (m : string) (msgs : list dict)
    (backend : Router.ModelBackend) :
  authorization req = Some ("Bearer " +:+ k) ->
  Auth.Manager.validate k (auth_manager gw) = Some key ->
  (Z.of_nat (length (RateLimit.window (t_count clk) k (rate_limiter gw)))
     < Auth.rpm_limit key)%Z ->
  json req = Some (VDict body) ->
  dict_get "model" body = Some (VStr m) ->
  m <> "" ->
  as_messages (dict_get_default "messages" (VList []) body) = Some msgs ->
  dict_get (chosen_model (model_tiering gw) (x_gonka_tier req) m) (model_router gw)
    = Some backend ->
  exists (is_streaming : bool) (body' : dict) (gw' : Gateway),
    prepare re_search str_of_list clk req gw =
      Some (Forward is_streaming backend body' k
              (chosen_model (model_tiering gw) (x_gonka_tier req) m), gw') /\
    dict_get "model" body'
      = Some (VStr (chosen_model (model_tiering gw) (x_gonka_tier req) m)) /\
    (forall field, field <> "model" -> field <> "messages" ->
                   dict_get field body' = dict_get field body) /\
    (session_of_request req = None -> dict_get "messages" body' = dict_get "messages" body).
Proof.
  intros Hauth Hkey Hroom Hjson Hmodel Hm Hmsgs Hbackend.
  eexists _, _, _. split;
    [apply (prepare_forward re_search str_of_list clk req gw k key body m msgs backend);
     assumption|].
  unfold forwarded_body.
  assert (Hbody1 :
    forall field,
      dict_get field
        (if Tiering.opt_truthy (x_gonka_tier req)
         then dict_set "model"
                (VStr (chosen_model (model_tiering gw) (x_gonka_tier req) m)) body
         else body)
      = if String.eqb field "model"
        then Some (VStr (chosen_model (model_tiering gw) (x_gonka_tier req) m))
        else dict_get field body).
  { intros field. destruct (String.eqb_spec field "model") as [->|Hne].
    - destruct (Tiering.opt_truthy (x_gonka_tier req)) eqn:Htier.
      + apply dict_get_set_eq.
      + by rewrite (chosen_model_no_hint _ _ m Htier).
    - destruct (Tiering.opt_truthy (x_gonka_tier req)); [|done].
      by apply dict_get_set_ne. }
  destruct (session_of_request req) as [sid|].
  - split; [|split; [|done]].
    + rewrite dict_get_set_ne by discriminate. apply (Hbody1 "model").
    + intros field Hfm Hfs. rewrite dict_get_set_ne by done. rewrite Hbody1.
      by destruct (String.eqb_spec field "model").
  - split; [apply (Hbody1 "model")|]. split.
    + intros field Hfm _. rewrite Hbody1. by destruct (String.eqb_spec field "model").
    + intros _. apply (Hbody1 "messages").
Qed.


(** X30. A streaming call reads the session but writes nothing to it: after
    the call the stored history is what it was, whatever the backend
    sent. *)
Theorem chat_completions_stream_keeps_history (clk : Clock) (on_post : reply)
    (on_stream : Stream.upstream) (req : Request) (gw : Gateway) (k : string)
    (key : Auth.APIKey) (body : dict) (m sid : string) (msgs : list dict)
    (backend : Router.ModelBackend) (s : Sessions.Session) :
  authorization req = Some ("Bearer " +:+ k) ->
  Auth.Manager.validate k (auth_manager gw) = Some key ->
  (Z.of_nat (length (RateLimit.window (t_count clk) k (rate_limiter gw)))
     < Auth.rpm_limit key)%Z ->
  json req = Some (VDict body) ->
  dict_get "model" body = Some (VStr m) ->
  m <> "" ->
  as_messages (dict_get_default "messages" (VList []) body) = Some msgs ->
  dict_get (chosen_model (model_tiering gw) (x_gonka_tier req) m) (model_router gw)
    = Some backend ->
  truthy (dict_get_default "stream" (VBool false) body) = true ->
  x_gonka_session_id req = Some sid ->
  sid <> "" ->
  Sessions._sessions (session_manager gw) !! sid = Some s ->
  exists (r : Stream.StreamingResponse) (gw' : Gateway),
    chat_completions re_search str_of_list json_loads json_dumps clk on_post on_stream
        req gw = Some (Ok (StreamingResponse r), gw') /\
    Sessions.stored_history sid (session_manager gw') = Sessions.messages s.
Proof.
  intros Hauth Hkey Hroom Hjson Hmodel Hm Hmsgs Hbackend Hstream Hsid Hsidne Hs.
  pose proof (session_of_request_some req sid Hsid Hsidne) as Hsession.
  unfold chat_completions.
  rewrite (prepare_forward re_search str_of_list clk req gw k key body m msgs backend
             Hauth Hkey Hroom Hjson Hmodel Hm Hmsgs Hbackend).
  rewrite Hstream. cbv iota.
  destruct (Stream._stream_response _ _ _ _ _ _ _ _ _ _ _) as [[r g] st].
  eexists _, _. split; [reflexivity|].
  cbn [session_manager set_meters]. unfold forwarded_gateway. rewrite Hsession.
  cbn [session_manager set_session_manager].
  rewrite (session_step_state _ _ _ _ _ _ _ _ _ Hs).
  unfold Sessions.stored_history. cbn [Sessions._sessions Sessions.set_sessions].
  by rewrite lookup_insert_eq.
Qed.

End PipelineCalls.

Section PipelineExamples.

Import Gateway.

Lemma demo_window :
  RateLimit.window (t_count demo_clock) "gk-demo-key-0001" (rate_limiter demo_gateway) = [].
Proof.
  unfold RateLimit.window, RateLimit.counter_of, demo_gateway. cbn [rate_limiter].
  by rewrite lookup_empty.
Qed.

Lemma limited_window :
  RateLimit.window (t_count demo_clock) "gk-demo-key-0001" (rate_limiter limited_gateway)
    = [9%Q].
Proof.
  unfold RateLimit.window, RateLimit.counter_of, limited_gateway. cbn [rate_limiter].
  rewrite lookup_singleton_eq. reflexivity.
Qed.

Lemma demo_session :
  Sessions._sessions (session_manager demo_gateway) !! "s1"
    = Some (Sessions.session_of "s1"
              [Sessions.msg "user" "A"; Sessions.msg "assistant" "B"] 0).
Proof. apply lookup_singleton_eq. Qed.

Lemma chat_completions_unauthenticated_witness :
  exists r : result response,
    chat_completions Tiering.literal_search (fun _ => "[]") Stream.table_loads
        Stream.opaque_dumps demo_clock NoConnection Stream.Unreachable
        anonymous_request demo_gateway = Some (r, demo_gateway) /\
    status_of_result r = Some 401%Z.
Proof.
  apply (chat_completions_unauthenticated Tiering.literal_search (fun _ => "[]")
           Stream.table_loads Stream.opaque_dumps demo_clock NoConnection
           Stream.Unreachable anonymous_request demo_gateway).
  intros k Hk. discriminate.
Defined.

Lemma chat_completions_rate_limited_witness :
  exists (r : result response) (gw' : Gateway),
    chat_completions Tiering.literal_search (fun _ => "[]") Stream.table_loads
        Stream.opaque_dumps demo_clock NoConnection Stream.Unreachable
        (demo_request false None) limited_gateway = Some (r, gw') /\
    status_of_result r = Some 429%Z /\
    session_manager gw' = session_manager limited_gateway /\
    usage_meter gw' = usage_meter limited_gateway /\
    RateLimit.timestamps (RateLimit.counter_of "gk-demo-key-0001" (rate_limiter gw'))
      = RateLimit.window (t_count demo_clock) "gk-demo-key-0001"
          (rate_limiter limited_gateway).
Proof.
  apply (chat_completions_rate_limited Tiering.literal_search (fun _ => "[]")
           Stream.table_loads Stream.opaque_dumps demo_clock NoConnection
           Stream.Unreachable (demo_request false None) limited_gateway
           "gk-demo-key-0001" limited_key).
  - reflexivity.
  - reflexivity.
  - rewrite limited_window. simpl. lia.
Defined.

Lemma chat_completions_counts_failed_requests_witness :
  exists (r : result response) (gw' : Gateway),
    chat_completions Tiering.literal_search (fun _ => "[]") Stream.table_loads
        Stream.opaque_dumps demo_clock NoConnection Stream.Unreachable
        garbled_request demo_gateway = Some (r, gw') /\
    (status_of_result r = Some 400%Z \/ status_of_result r = Some 404%Z) /\
    session_manager gw' = session_manager demo_gateway /\
    usage_meter gw' = usage_meter demo_gateway /\
    RateLimit.timestamps (RateLimit.counter_of "gk-demo-key-0001" (rate_limiter gw'))
      = RateLimit.window (t_count demo_clock) "gk-demo-key-0001"
          (rate_limiter demo_gateway) ++ [t_next demo_clock].
Proof.
  apply (chat_completions_counts_failed_requests Tiering.literal_search (fun _ => "[]")
           Stream.table_loads Stream.opaque_dumps demo_clock NoConnection
           Stream.Unreachable garbled_request demo_gateway "gk-demo-key-0001" demo_key).
  - reflexivity.
  - reflexivity.
  - rewrite demo_window. simpl. lia.
  - by left.
Defined.

Lemma chat_completions_model_choice_witness :
  exists (is_streaming : bool) (body' : dict) (gw' : Gateway),
    prepare Tiering.literal_search (fun _ => "[]") demo_clock
        (demo_request false (Some "reasoning")) demo_gateway =
      Some (Forward is_streaming (snd (Router.backend_of ("big", []))) body'
              "gk-demo-key-0001" "big", gw') /\
    dict_get "model" body' = Some (VStr "big") /\
    dict_get "max_tokens" body' = Some (VInt 64).
Proof.
  destruct (chat_completions_model_choice Tiering.literal_search (fun _ => "[]")
              demo_clock (demo_request false (Some "reasoning")) demo_gateway
              "gk-demo-key-0001" demo_key (demo_body false) "m1" demo_messages
              (snd (Router.backend_of ("big", []))))
    as (is_streaming & body' & gw' & Hprep & Hmodel & Hrest & _).
  - reflexivity.
  - reflexivity.
  - rewrite demo_window. simpl. lia.
  - reflexivity.
  - reflexivity.
  - discriminate.
  - apply as_messages_of_messages.
  - reflexivity.
  - exists is_streaming, body', gw'. split; [exact Hprep|]. split; [exact Hmodel|].
    rewrite Hrest by discriminate. reflexivity.
Defined.


Lemma chat_completions_stream_keeps_history_witness :
  exists (r : Stream.StreamingResponse) (gw' : Gateway),
    chat_completions Tiering.literal_search (fun _ => "[]") Stream.table_loads
        Stream.opaque_dumps demo_clock NoConnection
        (Stream.Responded 200 "" Stream.shrinking_stream false)
        (demo_request true None) demo_gateway
      = Some (Ok (StreamingResponse r), gw') /\
    Sessions.stored_history "s1" (session_manager gw')
      = [Sessions.msg "user" "A"; Sessions.msg "assistant" "B"].
Proof.
  apply (chat_completions_stream_keeps_history Tiering.literal_search (fun _ => "[]")
           Stream.table_loads Stream.opaque_dumps demo_clock NoConnection
           (Stream.Responded 200 "" Stream.shrinking_stream false)
           (demo_request true None) demo_gateway "gk-demo-key-0001" demo_key
           (demo_body true) "m1" "s1" demo_messages
           (snd (Router.backend_of ("m1", [])))
           (Sessions.session_of "s1"
              [Sessions.msg "user" "A"; Sessions.msg "assistant" "B"] 0)).
  - reflexivity.
  - reflexivity.
  - rewrite demo_window. simpl. lia.
  - reflexivity.
  - reflexivity.
  - discriminate.
  - apply as_messages_of_messages.
  - reflexivity.
  - reflexivity.
  - reflexivity.
  - discriminate.
  - apply demo_session.
Defined.

End PipelineExamples.
